(** * grip.readers: a shallow embedding of the Readme readers

    The development follows [grip/readers.py].  The module under study talks
    to the host through a handful of library calls ([posixpath], [os.path],
    [io.open], [mimetypes], [flask.safe_join], [sys.stdin]); each of them is
    given an executable model on a POSIX host, and the three reader classes
    are then transcribed method by method on top of those models.

    Python [str] values are represented by Rocq [string]s (a text is stored
    as its UTF-8 encoding, which is how the literals of this file are read),
    [bytes] values by [list byte], [None] by [option]. *)

From Stdlib Require Import String Ascii List ZArith NArith Bool Lia.
From Stdlib.Strings Require Import Byte.
Import ListNotations.

Open Scope list_scope.
Open Scope string_scope.

(* ------------------------------------------------------------------ *)
(** ** Python built-ins used by the module *)

Module Py.

(** Exceptions that can cross the reader interface. *)
Inductive errno := ENOENT | EACCES | EISDIR | ENOTDIR.

Inductive exn :=
| IOError (e : errno)          (* IOError / OSError carrying [errno] *)
| NotFound                     (* werkzeug.exceptions.NotFound *)
| UnicodeDecodeError.          (* a ValueError, not an IOError *)

(** A computation either returns or raises. *)
Inductive result (A : Type) :=
| Return (a : A)
| Raise (e : exn).
Arguments Return {A} a.
Arguments Raise {A} e.

Definition bind {A B} (m : result A) (k : A -> result B) : result B :=
  match m with
  | Return a => k a
  | Raise e => Raise e
  end.

Definition errno_eqb (a b : errno) : bool :=
  match a, b with
  | ENOENT, ENOENT | EACCES, EACCES | EISDIR, EISDIR | ENOTDIR, ENOTDIR => true
  | _, _ => false
  end.

(** Values an expression such as [m and m.startswith(p)] can take. *)
Inductive value :=
| VNone
| VStr (s : string)
| VBool (b : bool).

(** Truth value testing, as done by [not], [if] and [and]. *)
Definition truthy (v : value) : bool :=
  match v with
  | VNone => false
  | VStr s => negb (s =? "")
  | VBool b => b
  end.

(** [a and b]: [a] when it is falsy, else [b]. *)
Definition and_ (a : value) (b : value) : value :=
  if truthy a then b else a.

(** [s.startswith(prefix)] *)
Definition startswith (s prefix : string) : bool := String.prefix prefix s.

(** [s.endswith(suffix)] *)
Fixpoint endswith (s suffix : string) : bool :=
  if s =? suffix then true
  else match s with
       | "" => false
       | String _ s' => endswith s' suffix
       end.

(** [c in chars] for a one-character [c]. *)
Fixpoint mem (c : ascii) (chars : string) : bool :=
  match chars with
  | "" => false
  | String d chars' => if Ascii.eqb c d then true else mem c chars'
  end.

(** [s.rstrip(chars)]: drops the longest suffix made of characters of
    [chars]. *)
Fixpoint rstrip (s chars : string) : string :=
  match s with
  | "" => ""
  | String c s' =>
      match rstrip s' chars with
      | "" => if mem c chars then "" else String c ""
      | r => String c r
      end
  end.

(** [s.rfind(c)] for a one-character [c]: the highest index, or [-1]. *)
Fixpoint rfind (s : string) (c : ascii) : Z :=
  match s with
  | "" => (-1)%Z
  | String a s' =>
      let r := rfind s' c in
      if (0 <=? r)%Z then (r + 1)%Z
      else if Ascii.eqb a c then 0%Z else (-1)%Z
  end.

(** [s.find(c)] for a one-character [c]: the lowest index, or [-1]. *)
Fixpoint find (s : string) (c : ascii) : Z :=
  match s with
  | "" => (-1)%Z
  | String a s' =>
      if Ascii.eqb a c then 0%Z
      else let r := find s' c in
           if (0 <=? r)%Z then (r + 1)%Z else (-1)%Z
  end.

(** [s[:i]] and [s[i:]] for [0 <= i]. *)
Fixpoint slice_to (s : string) (i : nat) : string :=
  match i, s with
  | O, _ => ""
  | S _, "" => ""
  | S i', String a s' => String a (slice_to s' i')
  end.

Fixpoint slice_from (s : string) (i : nat) : string :=
  match i, s with
  | O, _ => s
  | S _, "" => ""
  | S i', String _ s' => slice_from s' i'
  end.

(** [s * n] *)
Fixpoint mul (s : string) (n : nat) : string :=
  match n with
  | O => ""
  | S n' => s ++ mul s n'
  end.

(** [s.split(c)] for a one-character separator: never empty. *)
Fixpoint split (s : string) (c : ascii) : list string :=
  match s with
  | "" => [""]
  | String a s' =>
      if Ascii.eqb a c then "" :: split s' c
      else match split s' c with
           | h :: t => String a h :: t
           | [] => [String a ""]
           end
  end.

(** [sep.join(parts)] *)
Definition join (sep : string) (parts : list string) : string :=
  String.concat sep parts.

(** [s.lower()] on ASCII letters. *)
Definition lower_ascii (a : ascii) : ascii :=
  let n := nat_of_ascii a in
  if (65 <=? n)%nat && (n <=? 90)%nat then ascii_of_nat (n + 32) else a.

Fixpoint lower (s : string) : string :=
  match s with
  | "" => ""
  | String a s' => String (lower_ascii a) (lower s')
  end.

(** Whether [s] is made of the character [c] only; how many [c] end [s]. *)
Fixpoint only (s : string) (c : ascii) : bool :=
  match s with
  | "" => true
  | String a s' => Ascii.eqb a c && only s' c
  end.

Fixpoint trailing (s : string) (c : ascii) : nat :=
  match s with
  | "" => 0
  | String a s' =>
      if only s' c && Ascii.eqb a c then S (trailing s' c)
      else trailing s' c
  end.

(** [key in d] / [d[key]] for a dict given by its items. *)
Fixpoint get {V} (d : list (string * V)) (key : string) : option V :=
  match d with
  | [] => None
  | (k, v) :: d' => if k =? key then Some v else get d' key
  end.

End Py.

Notation "x <- m ;; k" := (Py.bind m (fun x => k))
  (at level 61, m at next level, right associativity).

(* ------------------------------------------------------------------ *)
(** ** posixpath (the host's [os.path]) *)

Module posixpath.
Import Py.

Definition sep : ascii := "/"%char.

(** [isabs(s)] *)
Definition isabs (s : string) : bool := startswith s "/".

(** [split(p)]: everything up to the last slash, and the rest. *)
Definition split (p : string) : string * string :=
  let i := Z.to_nat (rfind p sep + 1) in
  let head := slice_to p i in
  let tail := slice_from p i in
  let head :=
    if negb (head =? "") && negb (head =? mul "/" (String.length head))
    then rstrip head "/" else head in
  (head, tail).

(** [dirname(p)] *)
Definition dirname (p : string) : string :=
  let i := Z.to_nat (rfind p sep + 1) in
  let head := slice_to p i in
  if negb (head =? "") && negb (head =? mul "/" (String.length head))
  then rstrip head "/" else head.

(** One round of the loop of [join(a, *p)]. *)
Definition join_step (path b : string) : string :=
  if startswith b "/" then b
  else if (path =? "") || endswith path "/" then path ++ b
  else path ++ "/" ++ b.

(** [join(a, *p)] *)
Definition join (a : string) (p : list string) : string :=
  fold_left join_step p a.

(** The loop body of [normpath]; [new_comps] is kept as a stack, last
    component first. *)
Definition normpath_step (initial_slashes : nat) (new_comps : list string)
    (comp : string) : list string :=
  if (comp =? "") || (comp =? ".") then new_comps
  else if negb (comp =? "..")
          || (Nat.eqb initial_slashes 0 && match new_comps with [] => true | _ => false end)
          || match new_comps with
             | last :: _ => last =? ".."
             | [] => false
             end
       then comp :: new_comps
       else match new_comps with
            | _ :: rest => rest
            | [] => new_comps
            end.

(** [normpath(path)] *)
Definition normpath (path : string) : string :=
  if path =? "" then "."
  else
    let initial_slashes :=
      if startswith path "/" then
        if startswith path "//" && negb (startswith path "///") then 2 else 1
      else 0 in
    let comps := Py.split path sep in
    let new_comps := fold_left (normpath_step initial_slashes) comps [] in
    let path := Py.join "/" (rev new_comps) in
    let path := mul "/" initial_slashes ++ path in
    if path =? "" then "." else path.

(** In the stack [normpath] builds for a relative path, [..] entries sit
    at the bottom: if the bottom one is not [..], none is. *)
Definition dotdot_free (stack : list string) : Prop :=
  Forall (fun comp => comp <> "..") stack.

Definition settled (stack : list string) : Prop :=
  last stack "" <> ".." -> dotdot_free stack.

(** The non-empty components of a path, which are all [normpath] looks
    at besides the leading slashes. *)
Definition components (path : string) : list string :=
  filter (fun comp => negb (comp =? "")) (Py.split path sep).

(** [splitext(p)]: the extension starts at the last dot of the last
    component, leading dots of that component apart. *)
Definition splitext (p : string) : string * string :=
  let sepIndex := rfind p sep in
  let dotIndex := rfind p "."%char in
  if (sepIndex <? dotIndex)%Z then
    let name_start := Z.to_nat (sepIndex + 1) in
    let stem := slice_from (slice_to p (Z.to_nat dotIndex)) name_start in
    if negb (stem =? mul "." (String.length stem))
    then (slice_to p (Z.to_nat dotIndex), slice_from p (Z.to_nat dotIndex))
    else (p, "")
  else (p, "").

End posixpath.

(* ------------------------------------------------------------------ *)
(** ** The host: a file tree, a working directory, the MIME table *)

Module os.
Import Py.

(** A file tree without links.  A file carries its modification time,
    whether the process may read it, and its bytes; a directory its
    modification time and its entries. *)
#[warnings="-register-all"]
Inductive node :=
| File (mtime : Z) (readable : bool) (data : list byte)
| Dir (mtime : Z) (entries : list (string * node)).

Record host := {
  root : node;                          (* the node of "/" *)
  cwd : list string;                    (* names from "/" to the working directory *)
  types_map : list (string * string)    (* mimetypes.types_map, strict part *)
}.

(** Path resolution keeps the chain of directories entered so far, the
    current one first, so that [..] can go back up. *)
Definition step (stack : list node) (comp : string) : result (list node) :=
  match stack with
  | [] => Raise (IOError ENOENT)
  | File _ _ _ :: _ => Raise (IOError ENOTDIR)
  | Dir _ entries :: up =>
      if (comp =? "") || (comp =? ".") then Return stack
      else if comp =? ".." then
        Return (match up with [] => stack | _ :: _ => up end)
      else match get entries comp with
           | Some n => Return (n :: stack)
           | None => Raise (IOError ENOENT)
           end
  end.

Fixpoint walk (stack : list node) (comps : list string) : result (list node) :=
  match comps with
  | [] => Return stack
  | c :: cs => st <- step stack c ;; walk st cs
  end.

(** Where resolution of [path] starts. *)
Definition start (h : host) (path : string) : result (list node) :=
  if posixpath.isabs path then Return [root h] else walk [root h] (cwd h).

Definition lookup (h : host) (path : string) : result (list node) :=
  if path =? "" then Raise (IOError ENOENT)
  else st <- start h path ;; walk st (Py.split path "/").

(** [os.stat(path)] *)
Definition stat (h : host) (path : string) : result node :=
  st <- lookup h path ;;
  match st with
  | n :: _ => Return n
  | [] => Raise (IOError ENOENT)
  end.

(** [os.path.isdir(path)]: [False] when [os.stat] fails. *)
Definition isdir (h : host) (path : string) : bool :=
  match stat h path with
  | Return (Dir _ _) => true
  | _ => false
  end.

(** [os.path.isfile(path)] *)
Definition isfile (h : host) (path : string) : bool :=
  match stat h path with
  | Return (File _ _ _) => true
  | _ => false
  end.

(** [os.path.getmtime(path)]: raises what [os.stat] raises. *)
Definition getmtime (h : host) (path : string) : result Z :=
  n <- stat h path ;;
  match n with
  | File mtime _ _ => Return mtime
  | Dir mtime _ => Return mtime
  end.

(** A component that makes resolution enter an entry: neither empty nor
    [.]. *)
Definition entered (comp : string) : bool :=
  negb ((comp =? "") || (comp =? ".")).

(** A name that can only denote an entry of the directory it is looked
    up in. *)
Definition proper (name : string) : bool :=
  negb ((name =? "") || (name =? ".") || (name =? "..") || mem "/" name).

(** A resolution stack is sound when every node below its top is a
    directory. *)
Definition is_dir (n : node) : bool :=
  match n with
  | Dir _ _ => true
  | File _ _ _ => false
  end.

Definition sound (stack : list node) : Prop :=
  Forall (fun n => is_dir n = true) (tl stack).

(** The node reached from [n] by going down through [names] only. *)
Fixpoint descend (n : node) (names : list string) : option node :=
  match names with
  | [] => Some n
  | c :: cs =>
      match n with
      | Dir _ entries =>
          match get entries c with
          | Some n' => descend n' cs
          | None => None
          end
      | File _ _ _ => None
      end
  end.

End os.

Module io.
Import Py os.

(** [io.open(filename, 'rb')] followed by [f.read()]. *)
Definition read_bytes (h : host) (filename : string) : result (list byte) :=
  n <- stat h filename ;;
  match n with
  | File _ true data => Return data
  | File _ false _ => Raise (IOError EACCES)
  | Dir _ _ => Raise (IOError EISDIR)
  end.

Definition between (lo hi : N) (b : byte) : bool :=
  (lo <=? Byte.to_N b)%N && (Byte.to_N b <=? hi)%N.

(** Well-formed UTF-8 (no overlong forms, no surrogates, at most
    U+10FFFF), which is what the strict decoder accepts. *)
Fixpoint utf8_valid (bs : list byte) : bool :=
  match bs with
  | [] => true
  | b0 :: r0 =>
      if between 0 127 b0 then utf8_valid r0
      else match r0 with
           | [] => false
           | b1 :: r1 =>
               if between 194 223 b0 then between 128 191 b1 && utf8_valid r1
               else match r1 with
                    | [] => false
                    | b2 :: r2 =>
                        if between 224 239 b0 then
                          (if between 224 224 b0 then between 160 191 b1
                           else if between 237 237 b0 then between 128 159 b1
                           else between 128 191 b1)
                          && between 128 191 b2 && utf8_valid r2
                        else match r2 with
                             | [] => false
                             | b3 :: r3 =>
                                 between 240 244 b0
                                 && (if between 240 240 b0 then between 144 191 b1
                                     else if between 244 244 b0 then between 128 143 b1
                                     else between 128 191 b1)
                                 && between 128 191 b2 && between 128 191 b3
                                 && utf8_valid r3
                             end
                    end
           end
  end.

Definition CR : ascii := ascii_of_nat 13.
Definition LF : ascii := ascii_of_nat 10.

(** Universal newlines, the default of text mode: CR LF and a lone CR are
    read as LF. *)
Fixpoint translate_newlines (s : string) : string :=
  match s with
  | "" => ""
  | String c s' =>
      if Ascii.eqb c CR then
        match s' with
        | String d s'' =>
            if Ascii.eqb d LF then String LF (translate_newlines s'')
            else String LF (translate_newlines s')
        | "" => String LF ""
        end
      else String c (translate_newlines s')
  end.

(** [bytes.decode('utf-8')] *)
Definition decode_utf8 (data : list byte) : result string :=
  if utf8_valid data then Return (string_of_list_byte data)
  else Raise UnicodeDecodeError.

(** [io.open(filename, 'rt', encoding='utf-8')] followed by [f.read()]. *)
Definition read_text (h : host) (filename : string) : result string :=
  data <- read_bytes h filename ;;
  s <- decode_utf8 data ;;
  Return (translate_newlines s).

End io.

Module mimetypes.
Import Py.

Definition suffix_map : list (string * string) :=
  [(".svgz", ".svg.gz"); (".tgz", ".tar.gz"); (".taz", ".tar.gz");
   (".tz", ".tar.gz"); (".tbz2", ".tar.bz2"); (".txz", ".tar.xz")].

Definition encodings_map : list (string * string) :=
  [(".gz", "gzip"); (".Z", "compress"); (".bz2", "bzip2"); (".xz", "xz");
   (".br", "br")].

(** Some entries of the table the library starts with. *)
Definition types_map : list (string * string) :=
  [(".png", "image/png"); (".jpg", "image/jpeg"); (".jpeg", "image/jpeg");
   (".gif", "image/gif"); (".svg", "image/svg+xml"); (".ico", "image/vnd.microsoft.icon");
   (".txt", "text/plain"); (".html", "text/html"); (".css", "text/css");
   (".js", "application/javascript"); (".json", "application/json");
   (".pdf", "application/pdf"); (".tar", "application/x-tar")].

(** What the pattern of [_splittype] matches at the start of [url]: the
    characters before the first colon, when no slash comes before it, and
    what follows that colon. *)
Fixpoint span_scheme (url : string) : option (string * string) :=
  match url with
  | "" => None
  | String c rest =>
      if Ascii.eqb c ":" then Some ("", rest)
      else if Ascii.eqb c "/" then None
      else match span_scheme rest with
           | Some (scheme, data) => Some (String c scheme, data)
           | None => None
           end
  end.

(** [urllib.parse._splittype(url)]: the group before the colon has to hold
    one character at least. *)
Definition splittype (url : string) : option string * string :=
  match span_scheme url with
  | Some (scheme, data) =>
      if scheme =? "" then (None, url) else (Some (lower scheme), data)
  | None => (None, url)
  end.

(** The branch of [guess_type] for [data:] URLs; [url] is what follows the
    scheme. *)
Definition guess_data (url : string) : option string :=
  let comma := find url "," in
  if (comma <? 0)%Z then None
  else
    let semi := find (slice_to url (Z.to_nat comma)) ";" in
    let type :=
      if (0 <=? semi)%Z then slice_to url (Z.to_nat semi)
      else slice_to url (Z.to_nat comma) in
    let type :=
      if mem "=" type || negb (mem "/" type) then "text/plain" else type in
    Some type.

(** The branch of [guess_type] that goes by the extension.  No value of
    [suffix_map] ends in one of its keys, so the library's loop over
    [suffix_map] runs its body at most once. *)
Definition guess_suffix (types : list (string * string)) (url : string)
  : option string :=
  let '(base, ext) := posixpath.splitext url in
  let '(base, ext) :=
    match get suffix_map (lower ext) with
    | Some full => posixpath.splitext (base ++ full)
    | None => (base, ext)
    end in
  let '(base, ext) :=
    match get encodings_map ext with
    | Some _ => posixpath.splitext base
    | None => (base, ext)
    end in
  get types (lower ext).

(** [guess_type(url)[0]] in strict mode, as in Python 3.11. *)
Definition guess_type (types : list (string * string)) (url : string)
  : option string :=
  let '(scheme, url) := splittype url in
  if match scheme with
     | Some scheme => scheme =? "data"
     | None => false
     end
  then guess_data url
  else guess_suffix types url.

End mimetypes.

Module flask.
Import Py.

(** [flask.safe_join] as it stands from Flask 0.11 to 2.0.  One round of
    its loop; the host has no alternative separators. *)
Definition safe_join_step (parts : result (list string)) (filename : string)
  : result (list string) :=
  parts <- parts ;;
  let filename :=
    if negb (filename =? "") then posixpath.normpath filename else filename in
  if posixpath.isabs filename
     || (filename =? "..")
     || startswith filename "../"
  then Raise NotFound
  else Return (parts ++ [filename])%list.

(** [safe_join(directory, *pathnames)] *)
Definition safe_join (directory : string) (pathnames : list string)
  : result string :=
  parts <- fold_left safe_join_step pathnames (Return [directory]) ;;
  match parts with
  | a :: p => Return (posixpath.join a p)
  | [] => Return ""
  end.

End flask.

Module constants.

(** Modelled from the spec: [grip/constants.py] is not part of the sources
    at hand; the candidates are the ones the specification lists, in its
    priority order. *)
Definition DEFAULT_FILENAMES : list string :=
  ["README.md"; "README.rst"; "README.markdown"; "README.txt"; "README"].

End constants.

Module resolver.
Import Py os.

(** Modelled from the spec: [grip/resolver.py] is not part of the sources
    at hand.  The first candidate that exists as a regular file directly
    in the directory is returned, joined to the directory; [None] when
    there is none. *)
Definition find_file (h : host) (path : string) : option string :=
  match List.find (fun name => isfile h (posixpath.join path [name]))
                  constants.DEFAULT_FILENAMES with
  | Some name => Some (posixpath.join path [name])
  | None => None
  end.

End resolver.

Module sys.

(** [sys.stdin], already in text mode (Python 3): what is left to read,
    and how many times [read()] was called on it. *)
Record stream := {
  pending : string;
  reads : nat
}.

(** [sys.stdin.read()]: everything up to the end of input. *)
Definition read (s : stream) : string * stream :=
  (pending s, {| pending := ""; reads := S (reads s) |}).

End sys.

(* ------------------------------------------------------------------ *)
(** ** grip.readers *)

(** What [read] hands back: text, or the bytes of a binary file. *)
Inductive content :=
| Text (s : string)
| Binary (b : list byte).

Module ReadmeReader.
Import Py os.

Definition normalize (subpath : option string) : option string := subpath.

Definition filename_for (subpath : option string) : option string := subpath.

Definition mimetype_for (h : host) (subpath : option string) : option string :=
  match subpath with
  | None => None
  | Some subpath => mimetypes.guess_type (types_map h) subpath
  end.

Definition is_binary (subpath : option string) : value := VBool false.

Definition last_updated (subpath : option string) : option Z := None.

End ReadmeReader.

Module DirectoryReader.
Import Py os.

Record t := {
  path : string;
  filename : string;
  directory : string
}.

Definition __init__ (path : string) : t :=
  let in_filename := path in
  {| path := path;
     filename := in_filename;
     directory := posixpath.dirname in_filename |}.

Definition read_text_file (h : host) (filename : string)
  : result (option content) :=
  match io.read_text h filename with
  | Return s => Return (Some (Text s))
  | Raise (IOError ex) =>
      if errno_eqb ex ENOENT then Return None else Raise (IOError ex)
  | Raise ex => Raise ex
  end.

Definition read_binary_file (h : host) (filename : string)
  : result (option content) :=
  match io.read_bytes h filename with
  | Return b => Return (Some (Binary b))
  | Raise (IOError ex) =>
      if errno_eqb ex ENOENT then Return None else Raise (IOError ex)
  | Raise ex => Raise ex
  end.

Definition filename_for (self : t) (subpath : option string) : string :=
  match subpath with
  | None => filename self
  | Some subpath =>
      let '(head, tail) := posixpath.split subpath in
      posixpath.join head [tail]
  end.

Definition normalize (self : t) (h : host) (subpath : option string)
  : result (option string) :=
  match subpath with
  | None => Return None
  | Some s =>
      filename <- flask.safe_join (directory self) [filename_for self subpath] ;;
      if negb (isdir h filename) then Return (Some (rstrip s "/"))
      else if negb (endswith s "/") then Return (Some (s ++ "/"))
      else Return (Some s)
  end.

Definition last_updated (self : t) (h : host) (subpath : option string)
  : result Z :=
  getmtime h (match subpath with
              | Some s => s
              | None => filename self
              end).

Definition mimetype_for := ReadmeReader.mimetype_for.

Definition is_binary (h : host) (subpath : option string) : value :=
  match mimetype_for h subpath with
  | None => VNone
  | Some mimetype => and_ (VStr mimetype) (VBool (startswith mimetype "image/"))
  end.

Definition read (self : t) (h : host) (subpath : option string)
  : result (option content) :=
  match subpath with
  | None => read_text_file h (filename self)
  | Some _ =>
      filename <- flask.safe_join (directory self) [filename_for self subpath] ;;
      match (if isdir h filename then resolver.find_file h filename
             else Some filename) with
      | None => Return None
      | Some filename =>
          let is_text := negb (truthy (is_binary h subpath)) in
          if is_text then read_text_file h filename
          else read_binary_file h filename
      end
  end.

(** The chain of directories from the reader's directory up to the root;
    an empty [directory] stands for the working directory. *)
Definition base (self : t) (h : host) : result (list node) :=
  if directory self =? "" then walk [root h] (cwd h)
  else lookup h (directory self).

(** The file [read] ends up opening, if it gets that far. *)
Definition opened_file (self : t) (h : host) (subpath : option string)
  : result (option string) :=
  match subpath with
  | None => Return (Some (filename self))
  | Some _ =>
      filename <- flask.safe_join (directory self) [filename_for self subpath] ;;
      Return (if isdir h filename then resolver.find_file h filename
              else Some filename)
  end.

End DirectoryReader.

Module TextReader.

Record t := {
  text : option string;
  filename : option string
}.

Definition __init__ (text : option string) (filename : option string) : t :=
  {| text := text; filename := filename |}.

Definition filename_for (self : t) (subpath : option string) : option string :=
  match subpath with
  | Some _ => None
  | None =>
      match filename self with
      | Some f => if f =? "" then Some (hd "" constants.DEFAULT_FILENAMES)
                  else Some f
      | None => Some (hd "" constants.DEFAULT_FILENAMES)
      end
  end.

Definition read (self : t) (subpath : option string) : option string :=
  match subpath with
  | Some _ => None
  | None => text self
  end.

Definition normalize := ReadmeReader.normalize.
Definition mimetype_for := ReadmeReader.mimetype_for.
Definition is_binary := ReadmeReader.is_binary.
Definition last_updated := ReadmeReader.last_updated.

End TextReader.

Module StdinReader.

(** The instance is a [TextReader] whose [text] is assigned by [read];
    the methods thread the instance and the input stream. *)
Definition t := TextReader.t.

Definition __init__ (filename : option string) : t :=
  TextReader.__init__ None filename.

(** Under Python 3 what [sys.stdin.read()] returns is text already, and
    [read_stdin] returns it as it is. *)
Definition read_stdin (stdin : sys.stream) : string * sys.stream :=
  sys.read stdin.

Definition read (self : t) (stdin : sys.stream) (subpath : option string)
  : option string * t * sys.stream :=
  let '(self, stdin) :=
    match TextReader.text self, subpath with
    | None, None =>
        let '(text, stdin) := read_stdin stdin in
        ({| TextReader.text := Some text;
            TextReader.filename := TextReader.filename self |}, stdin)
    | _, _ => (self, stdin)
    end in
  (TextReader.read self subpath, self, stdin).


(** What a call returns once the text [c] is known. *)
Definition answer (c : string) (subpath : option string) : option string :=
  match subpath with
  | None => Some c
  | Some _ => None
  end.

(** A run of [read] calls on one instance; the results come in call
    order. *)
Fixpoint reads (self : t) (stdin : sys.stream) (subpaths : list (option string))
  : list (option string) * t * sys.stream :=
  match subpaths with
  | [] => ([], self, stdin)
  | subpath :: rest =>
      let '(r, self, stdin) := read self stdin subpath in
      let '(rs, self, stdin) := reads self stdin rest in
      (r :: rs, self, stdin)
  end.

End StdinReader.

(* ------------------------------------------------------------------ *)
(** ** A concrete host *)

Module Example.
Import Py os.

Definition png : list byte :=
  [x89; x50; x4e; x47; x0d; x0a; x1a; x0a; x00; xff]%byte.

(** [/srv/docs] holds a Readme, a guide, an unreadable file, a picture
    and an [images] directory whose only entry is [README.png]; the
    process runs in [/srv]. *)
Definition docs : node :=
  Dir 40
    [("README.md", File 100 true (list_byte_of_string "Hello"));
     ("guide.md", File 200 true (list_byte_of_string "Guide"));
     ("secret.md", File 300 false (list_byte_of_string "Secret"));
     ("logo.png", File 500 true png);
     ("images", Dir 50 [("README.png", File 400 true png)])].

Definition tree : node :=
  Dir 10
    [("etc", Dir 20 [("passwd", File 1 true (list_byte_of_string "root:x:0:0"))]);
     ("srv", Dir 30 [("docs", docs)])].

Definition h : host :=
  {| root := tree; cwd := ["srv"]; types_map := mimetypes.types_map |}.

Definition reader : DirectoryReader.t :=
  DirectoryReader.__init__ "docs/README.md".

End Example.

(* ------------------------------------------------------------------ *)
(** * Properties *)

(** ** TextReader and StdinReader *)

(** C8: a [TextReader] returns the text it was built with when no subpath
    is given, and [None] for every subpath. *)
Theorem C8_text_reader_read :
  forall (text filename : option string),
    TextReader.read (TextReader.__init__ text filename) None = text
    /\ forall subpath : string,
        TextReader.read (TextReader.__init__ text filename) (Some subpath) = None.
Proof.
  intros text filename. split.
  - reflexivity.
  - intros subpath. reflexivity.
Qed.

Section StdinFacts.
Import StdinReader.


Lemma read_filled (c : string) (fn : option string) (stdin : sys.stream)
      (subpath : option string) :
  let self := {| TextReader.text := Some c; TextReader.filename := fn |} in
  read self stdin subpath = (answer c subpath, self, stdin).
Proof.
  destruct subpath; reflexivity.
Qed.

Lemma reads_filled (c : string) (fn : option string) (stdin : sys.stream) :
  forall subpaths,
    let self := {| TextReader.text := Some c; TextReader.filename := fn |} in
    reads self stdin subpaths = (map (answer c) subpaths, self, stdin).
Proof.
  induction subpaths as [|sp rest IH]; [reflexivity|].
  cbn zeta in *. cbn [reads]. rewrite read_filled. cbn zeta.
  rewrite IH. reflexivity.
Qed.


End StdinFacts.


(** ** DirectoryReader: binary detection and the helpers that open files *)

Section OpenFacts.
Import Py os DirectoryReader.

Lemma truthy_and_str (m : string) (b : bool) :
  truthy (and_ (VStr m) (VBool b)) = negb (m =? "") && b.
Proof.
  destruct m; reflexivity.
Qed.

Lemma startswith_nonempty (m p : string) :
  startswith m p = true -> p <> "" -> m <> "".
Proof.
  intros H Hp ->. destruct p; [congruence | discriminate].
Qed.

(** The two helpers treat the errors of [open] alike. *)
Lemma read_text_file_error (h : host) (f : string) (e : errno) :
  io.read_bytes h f = Raise (IOError e) ->
  read_text_file h f =
  if errno_eqb e ENOENT then Return None else Raise (IOError e).
Proof.
  intros H. unfold read_text_file, io.read_text. rewrite H. reflexivity.
Qed.

Lemma read_binary_file_error (h : host) (f : string) (e : errno) :
  io.read_bytes h f = Raise (IOError e) ->
  read_binary_file h f =
  if errno_eqb e ENOENT then Return None else Raise (IOError e).
Proof.
  intros H. unfold read_binary_file. rewrite H. reflexivity.
Qed.

Lemma read_text_file_no_enoent (h : host) (f : string) (e : errno) :
  read_text_file h f = Raise (IOError e) -> e <> ENOENT.
Proof.
  unfold read_text_file.
  destruct (io.read_text h f) as [s|[ex| |]]; try discriminate.
  destruct ex; cbn; intros H; inversion H; discriminate.
Qed.

Lemma read_binary_file_no_enoent (h : host) (f : string) (e : errno) :
  read_binary_file h f = Raise (IOError e) -> e <> ENOENT.
Proof.
  unfold read_binary_file.
  destruct (io.read_bytes h f) as [s|[ex| |]]; try discriminate.
  destruct ex; cbn; intros H; inversion H; discriminate.
Qed.

Lemma read_text_file_not_binary (h : host) (f : string) (b : list byte) :
  read_text_file h f <> Return (Some (Binary b)).
Proof.
  unfold read_text_file.
  destruct (io.read_text h f) as [s|[ex| |]]; try discriminate.
  destruct (errno_eqb ex ENOENT); discriminate.
Qed.

Lemma safe_join_raises (d : string) (fn : string) (e : exn) :
  flask.safe_join d [fn] = Raise e -> e = NotFound.
Proof.
  unfold flask.safe_join. cbn.
  match goal with |- context [if ?c then _ else _] => destruct c end;
    cbn; congruence.
Qed.

(** [read] is [opened_file] followed by one of the two helpers. *)
Lemma read_via_opened_file (self : t) (h : host) (subpath : option string) :
  read self h subpath =
  (found <- opened_file self h subpath ;;
   match found with
   | None => Return None
   | Some f =>
       match subpath with
       | None => read_text_file h f
       | Some _ =>
           if negb (truthy (is_binary h subpath)) then read_text_file h f
           else read_binary_file h f
       end
   end).
Proof.
  destruct subpath as [s|]; [|reflexivity].
  unfold read, opened_file.
  destruct (flask.safe_join (directory self) [filename_for self (Some s)]);
    reflexivity.
Qed.

End OpenFacts.

(** C7, as stated, fails at [notes.xyz]: no type is guessed for it and
    [is_binary] returns [None], which is not [False]. *)
Lemma C7_unknown_type_counterexample :
  DirectoryReader.is_binary Example.h (Some "notes.xyz") <> Py.VBool false.
Proof.
  vm_compute. discriminate.
Qed.

(** C7, amended: [is_binary] is truthy exactly when a MIME type is guessed
    for the subpath and it starts with [image/], and the value is then
    [True].  Otherwise the value is falsy but not always [False]: it is
    [None] when no type is guessed (an extension that is not known, or no
    subpath), the guessed type itself if that is the empty string, and
    [False] for any other guessed type.  So [logo.png] gives [True],
    [notes.txt] gives [False], [notes.md] and [notes.xyz] give [None] with
    the table of the example host. *)
Theorem C7_is_binary_value :
  (forall (h : os.host) (subpath : option string),
      DirectoryReader.is_binary h subpath
      = match DirectoryReader.mimetype_for h subpath with
        | None => Py.VNone
        | Some mimetype =>
            if mimetype =? "" then Py.VStr ""
            else Py.VBool (Py.startswith mimetype "image/")
        end
      /\ (Py.truthy (DirectoryReader.is_binary h subpath) = true <->
          exists mimetype,
            DirectoryReader.mimetype_for h subpath = Some mimetype
            /\ Py.startswith mimetype "image/" = true)
      /\ (Py.truthy (DirectoryReader.is_binary h subpath) = true <->
          DirectoryReader.is_binary h subpath = Py.VBool true))
  /\ DirectoryReader.is_binary Example.h (Some "logo.png") = Py.VBool true
  /\ DirectoryReader.is_binary Example.h (Some "notes.txt") = Py.VBool false
  /\ DirectoryReader.is_binary Example.h (Some "notes.md") = Py.VNone
  /\ DirectoryReader.is_binary Example.h (Some "notes.xyz") = Py.VNone
  /\ DirectoryReader.is_binary Example.h None = Py.VNone.
Proof.
  split; [|repeat split; reflexivity].
  intros h subpath. unfold DirectoryReader.is_binary.
  destruct (DirectoryReader.mimetype_for h subpath) as [m|].
  - split; [destruct m; reflexivity|].
    rewrite truthy_and_str. split.
    + split.
      * intros H. apply andb_true_iff in H. exists m. tauto.
      * intros [m' [Hm Hs]]. inversion Hm; subst m'.
        rewrite Hs, andb_true_r. apply negb_true_iff, String.eqb_neq.
        apply (startswith_nonempty _ _ Hs). discriminate.
    + destruct m as [|c m]; cbn.
      * split; discriminate.
      * split; congruence.
  - cbn. split; [reflexivity|]. split.
    + split; [discriminate|]. intros [m [H _]]. discriminate.
    + split; discriminate.
Qed.

(** C10: without a subpath, [read] is [read_text_file] on the entry
    filename: the MIME table plays no part, the result is never bytes, and
    an entry file named [logo.png], which [is_binary] calls binary, is
    still decoded as text. *)
Theorem C10_read_entry_as_text :
  (forall (self : DirectoryReader.t) (rt : os.node) (wd : list string)
          (types types' : list (string * string)),
      let h := {| os.root := rt; os.cwd := wd; os.types_map := types |} in
      let h' := {| os.root := rt; os.cwd := wd; os.types_map := types' |} in
      DirectoryReader.read self h None =
      DirectoryReader.read_text_file h (DirectoryReader.filename self)
      /\ DirectoryReader.read self h None = DirectoryReader.read self h' None
      /\ match DirectoryReader.read self h None with
         | Py.Return (Some (Binary _)) => False
         | _ => True
         end)
  /\ Py.truthy (DirectoryReader.is_binary Example.h (Some "docs/logo.png")) = true
  /\ DirectoryReader.read (DirectoryReader.__init__ "docs/logo.png") Example.h None
     = Py.Raise Py.UnicodeDecodeError
  /\ DirectoryReader.read (DirectoryReader.__init__ "docs/README.md") Example.h None
     = Py.Return (Some (Text "Hello")).
Proof.
  split; [|repeat split; reflexivity].
  intros self rt wd types types' h h'.
  split; [reflexivity|]. split; [reflexivity|].
  cbn [DirectoryReader.read].
  pose proof (read_text_file_not_binary h (DirectoryReader.filename self)) as H.
  destruct (DirectoryReader.read_text_file h (DirectoryReader.filename self))
    as [[[s|b]|]|e]; try exact I.
  exact (H b eq_refl).
Qed.

(** C4: whatever file [read] opens, a failure of the open with [ENOENT]
    gives [None] and a failure with any other [errno] is raised unchanged;
    [read] never raises an [IOError] whose [errno] is [ENOENT]. *)
Theorem C4_missing_is_absent_others_raise :
  forall (self : DirectoryReader.t) (h : os.host) (subpath : option string),
    (forall (f : string) (e : Py.errno),
        DirectoryReader.opened_file self h subpath = Py.Return (Some f) ->
        io.read_bytes h f = Py.Raise (Py.IOError e) ->
        DirectoryReader.read self h subpath =
        if Py.errno_eqb e Py.ENOENT then Py.Return None
        else Py.Raise (Py.IOError e))
    /\ (forall e : Py.errno,
           DirectoryReader.read self h subpath = Py.Raise (Py.IOError e) ->
           e <> Py.ENOENT).
Proof.
  intros self h subpath. split.
  - intros f e Hf He. rewrite read_via_opened_file, Hf. cbn.
    destruct subpath as [s|].
    + destruct (negb (Py.truthy (DirectoryReader.is_binary h (Some s)))).
      * apply read_text_file_error; exact He.
      * apply read_binary_file_error; exact He.
    + apply read_text_file_error; exact He.
  - intros e. rewrite read_via_opened_file.
    destruct (DirectoryReader.opened_file self h subpath) as [[f|]|ex] eqn:Hf; cbn.
    + destruct subpath as [s|].
      * destruct (negb (Py.truthy (DirectoryReader.is_binary h (Some s)))).
        -- apply read_text_file_no_enoent.
        -- apply read_binary_file_no_enoent.
      * apply read_text_file_no_enoent.
    + discriminate.
    + destruct subpath as [s|]; [|discriminate].
      unfold DirectoryReader.opened_file in Hf.
      destruct (flask.safe_join (DirectoryReader.directory self)
                  [DirectoryReader.filename_for self (Some s)]) eqn:Hj;
        cbn in Hf; [discriminate|].
      apply safe_join_raises in Hj. intros H. congruence.
Qed.

(** At [missing.md] the open fails with [ENOENT] and [read] returns [None];
    at [secret.md] it fails with [EACCES], which is raised. *)
Lemma C4_witness :
  DirectoryReader.read Example.reader Example.h (Some "missing.md") = Py.Return None
  /\ DirectoryReader.read Example.reader Example.h (Some "secret.md")
     = Py.Raise (Py.IOError Py.EACCES)
  /\ Py.EACCES <> Py.ENOENT.
Proof.
  pose proof (C4_missing_is_absent_others_raise Example.reader Example.h) as H.
  split; [|split].
  - exact (proj1 (H (Some "missing.md")) "docs/missing.md" Py.ENOENT
             eq_refl eq_refl).
  - exact (proj1 (H (Some "secret.md")) "docs/secret.md" Py.EACCES
             eq_refl eq_refl).
  - exact (proj2 (H (Some "secret.md")) Py.EACCES eq_refl).
Defined.

(** ** DirectoryReader end to end *)

(** C2, as stated, fails on the example host: a reader on
    [docs/README.md], with [docs/images/] holding only [README.png], does
    not return that file's bytes for [images/], and [is_binary] is not
    truthy there. *)
Lemma C2_images_directory_counterexample :
  ~ (DirectoryReader.read Example.reader Example.h None
     = Py.Return (Some (Text "Hello"))
     /\ DirectoryReader.read Example.reader Example.h (Some "missing.md")
        = Py.Return None
     /\ DirectoryReader.read Example.reader Example.h (Some "images/")
        = Py.Return (Some (Binary Example.png))
     /\ Py.truthy (DirectoryReader.is_binary Example.h (Some "images/")) = true).
Proof.
  intros (_ & _ & _ & H). vm_compute in H. discriminate H.
Qed.

(** C2, amended: [read(None)] returns ["Hello"]; [read("missing.md")]
    returns [None]; [read("images/")] returns [None], since [README.png] is
    not a default filename, and [is_binary("images/")] is falsy, being
    decided on the subpath; the bytes of the picture, with [is_binary] true,
    are what [read("images/README.png")] returns. *)
Theorem C2_end_to_end :
  DirectoryReader.read Example.reader Example.h None
  = Py.Return (Some (Text "Hello"))
  /\ DirectoryReader.read Example.reader Example.h (Some "missing.md")
     = Py.Return None
  /\ DirectoryReader.read Example.reader Example.h (Some "images/")
     = Py.Return None
  /\ DirectoryReader.is_binary Example.h (Some "images/") = Py.VNone
  /\ DirectoryReader.read Example.reader Example.h (Some "images/README.png")
     = Py.Return (Some (Binary Example.png))
  /\ DirectoryReader.is_binary Example.h (Some "images/README.png")
     = Py.VBool true.
Proof.
  repeat split; vm_compute; reflexivity.
Qed.

(** C3, the code at the failing input: [last_updated] hands the subpath to
    [getmtime] as it is, so it is looked up from the working directory and
    not from the reader's directory.  [guide.md] is readable through the
    reader on [docs/README.md] and [docs/guide.md] was modified at 200, yet
    [last_updated("guide.md")] raises; without a subpath the entry file's
    time is returned. *)
Lemma C3_last_updated_skips_directory :
  (forall (self : DirectoryReader.t) (h : os.host) (s : string),
      DirectoryReader.last_updated self h (Some s) = os.getmtime h s)
  /\ DirectoryReader.read Example.reader Example.h (Some "guide.md")
     = Py.Return (Some (Text "Guide"))
  /\ os.getmtime Example.h "docs/guide.md" = Py.Return 200%Z
  /\ DirectoryReader.last_updated Example.reader Example.h (Some "guide.md")
     = Py.Raise (Py.IOError Py.ENOENT)
  /\ DirectoryReader.last_updated Example.reader Example.h None
     = Py.Return 100%Z.
Proof.
  split; [reflexivity|]. repeat split; vm_compute; reflexivity.
Qed.

(** ** Strings: slashes at the end of a path *)

Section SlashFacts.
Import Py.

Local Abbreviation sl := "/"%char.

Lemma append_nil_r (s : string) : s ++ "" = s.
Proof. induction s as [|c s IH]; cbn; [reflexivity | now rewrite IH]. Qed.

Lemma append_assoc (a b c : string) : (a ++ b) ++ c = a ++ b ++ c.
Proof. induction a as [|x a IH]; cbn; [reflexivity | now rewrite IH]. Qed.

Lemma append_eq_nil (a b : string) : a ++ b = "" -> a = "" /\ b = "".
Proof. destruct a; cbn; [auto | discriminate]. Qed.

Lemma mem_slash (c : ascii) : mem c "/" = Ascii.eqb c sl.
Proof. cbn. destruct (Ascii.eqb c sl); reflexivity. Qed.

Lemma mul_slash_S (n : nat) : mul "/" (S n) = String sl (mul "/" n).
Proof. reflexivity. Qed.

Lemma mul_slash_snoc (n : nat) : mul "/" (S n) = mul "/" n ++ "/".
Proof.
  induction n as [|n IH]; [reflexivity|].
  rewrite mul_slash_S, IH at 1. rewrite mul_slash_S. reflexivity.
Qed.

Lemma only_mul (n : nat) : only (mul "/" n) sl = true.
Proof. induction n as [|n IH]; [reflexivity|]. rewrite mul_slash_S. cbn. exact IH. Qed.

Lemma only_is_mul (s : string) :
  only s sl = true -> s = mul "/" (String.length s).
Proof.
  induction s as [|c s IH]; cbn [only]; [reflexivity|].
  intros H. apply andb_true_iff in H as [Hc Hs].
  apply Ascii.eqb_eq in Hc. subst c.
  cbn [String.length]. rewrite mul_slash_S. f_equal. exact (IH Hs).
Qed.

Lemma eqb_mul_only (s : string) :
  (s =? mul "/" (String.length s)) = only s sl.
Proof.
  destruct (only s sl) eqn:H.
  - apply String.eqb_eq. exact (only_is_mul s H).
  - apply String.eqb_neq. intros E. rewrite E, only_mul in H. discriminate.
Qed.

Lemma only_app (a b : string) : only (a ++ b) sl = only a sl && only b sl.
Proof.
  induction a as [|c a IH]; cbn; [reflexivity|].
  rewrite IH. now rewrite andb_assoc.
Qed.

Lemma rstrip_cons (c : ascii) (s : string) :
  rstrip (String c s) "/" =
  if (rstrip s "/" =? "") && Ascii.eqb c sl then ""
  else String c (rstrip s "/").
Proof.
  cbn [rstrip]. rewrite mem_slash.
  destruct (rstrip s "/"); cbn; [|reflexivity].
  destruct (Ascii.eqb c sl); reflexivity.
Qed.

Lemma rstrip_nil_only (s : string) :
  (rstrip s "/" =? "") = only s sl.
Proof.
  induction s as [|c s IH]; [reflexivity|].
  rewrite rstrip_cons. cbn [only]. rewrite <- IH.
  destruct (rstrip s "/" =? ""); cbn.
  - destruct (Ascii.eqb c sl); reflexivity.
  - now rewrite andb_false_r.
Qed.

Lemma rstrip_only (s : string) : only s sl = true -> rstrip s "/" = "".
Proof. rewrite <- rstrip_nil_only. apply String.eqb_eq. Qed.

Lemma endswith_cons (c : ascii) (s : string) :
  endswith (String c s) "/" =
  if s =? "" then Ascii.eqb c sl else endswith s "/".
Proof.
  cbn [endswith]. destruct s as [|d s].
  - cbn. destruct (Ascii.eqb c sl); reflexivity.
  - replace (String c (String d s) =? "/") with false; [reflexivity|].
    symmetry. apply String.eqb_neq. discriminate.
Qed.

Lemma endswith_app_slash (s : string) : endswith (s ++ "/") "/" = true.
Proof.
  induction s as [|c s IH]; [reflexivity|].
  cbn [append]. rewrite endswith_cons, IH.
  destruct (s ++ "/" =? "") eqn:E; [|reflexivity].
  apply String.eqb_eq, append_eq_nil in E. destruct E; discriminate.
Qed.

Lemma endswith_inv (s : string) :
  endswith s "/" = true -> exists s', s = s' ++ "/".
Proof.
  induction s as [|c s IH]; [discriminate|].
  rewrite endswith_cons. destruct (s =? "") eqn:E.
  - apply String.eqb_eq in E. subst s. intros H.
    apply Ascii.eqb_eq in H. subst c. exists "". reflexivity.
  - intros H. destruct (IH H) as [s' ->]. exists (String c s'). reflexivity.
Qed.

Lemma endswith_rstrip (s : string) : endswith (rstrip s "/") "/" = false.
Proof.
  induction s as [|c s IH]; [reflexivity|].
  rewrite rstrip_cons.
  destruct (rstrip s "/" =? "") eqn:E; cbn [andb].
  - destruct (Ascii.eqb c sl) eqn:Ec; [reflexivity|].
    rewrite endswith_cons, E. exact Ec.
  - rewrite endswith_cons, E. exact IH.
Qed.

Lemma rstrip_noop (s : string) :
  endswith s "/" = false -> rstrip s "/" = s.
Proof.
  induction s as [|c s IH]; [reflexivity|].
  rewrite endswith_cons, rstrip_cons.
  destruct (s =? "") eqn:E.
  - apply String.eqb_eq in E. subst s. cbn. intros ->. reflexivity.
  - intros H. rewrite (IH H), E. reflexivity.
Qed.

Lemma rstrip_idem (s : string) : rstrip (rstrip s "/") "/" = rstrip s "/".
Proof. apply rstrip_noop, endswith_rstrip. Qed.

Lemma rstrip_app_slash (s : string) : rstrip (s ++ "/") "/" = rstrip s "/".
Proof.
  induction s as [|c s IH]; [reflexivity|].
  cbn [append]. rewrite !rstrip_cons, IH. reflexivity.
Qed.

Lemma rstrip_decomp (s : string) :
  s = rstrip s "/" ++ mul "/" (trailing s sl).
Proof.
  induction s as [|c s IH]; [reflexivity|].
  rewrite rstrip_cons. cbn [trailing]. rewrite rstrip_nil_only.
  destruct (only s sl && Ascii.eqb c sl) eqn:E.
  - apply andb_true_iff in E as [Ho Ec].
    apply Ascii.eqb_eq in Ec. subst c.
    rewrite mul_slash_S. cbn [append]. f_equal.
    rewrite (rstrip_only s Ho) in IH. exact IH.
  - cbn [append]. f_equal. exact IH.
Qed.

End SlashFacts.

Section TrailingFacts.
Import Py.

Local Abbreviation sl := "/"%char.

Lemma trailing_app_slash (s : string) :
  trailing (s ++ "/") sl = S (trailing s sl).
Proof.
  induction s as [|c s IH]; [reflexivity|].
  cbn [append trailing]. rewrite only_app, IH.
  cbn [only]. rewrite Ascii.eqb_refl, !andb_true_r.
  destruct (only s sl && Ascii.eqb c sl); reflexivity.
Qed.

Lemma trailing_no_slash (s : string) :
  endswith s "/" = false -> trailing s sl = 0.
Proof.
  intros H. destruct (trailing s sl) as [|k] eqn:E; [reflexivity|].
  pose proof (rstrip_decomp s) as D. rewrite E, mul_slash_snoc in D.
  rewrite <- append_assoc in D. rewrite D, endswith_app_slash in H.
  discriminate.
Qed.

Lemma trailing_slash (s : string) :
  endswith s "/" = true -> 1 <= trailing s sl.
Proof.
  intros H. destruct (endswith_inv s H) as [s' ->].
  rewrite trailing_app_slash. lia.
Qed.

Lemma trailing_rstrip (s : string) : trailing (rstrip s "/") sl = 0.
Proof. apply trailing_no_slash, endswith_rstrip. Qed.

End TrailingFacts.

(** ** Strings: components of a path *)

Section SplitFacts.
Import Py.

Local Abbreviation sl := "/"%char.

Lemma split_nonempty (s : string) : Py.split s sl <> [].
Proof.
  destruct s as [|c s]; cbn; [discriminate|].
  destruct (Ascii.eqb c sl); [discriminate|].
  destruct (Py.split s sl); discriminate.
Qed.

Lemma split_cons_other (c : ascii) (s : string) :
  Ascii.eqb c sl = false ->
  exists h t, Py.split s sl = h :: t /\ Py.split (String c s) sl = String c h :: t.
Proof.
  intros Hc. cbn [Py.split]. rewrite Hc.
  destruct (Py.split s sl) as [|h t] eqn:E.
  - exfalso. exact (split_nonempty s E).
  - exists h, t. split; reflexivity.
Qed.

Lemma split_app (a b : string) :
  Py.split (a ++ String sl b) sl = (Py.split a sl ++ Py.split b sl)%list.
Proof.
  induction a as [|c a IH]; [reflexivity|].
  cbn [append]. destruct (Ascii.eqb c sl) eqn:Hc.
  - cbn [Py.split]. rewrite Hc, IH. reflexivity.
  - destruct (split_cons_other c a Hc) as (h & t & E & ->).
    cbn [Py.split]. rewrite Hc, IH, E. reflexivity.
Qed.

Lemma split_slash_free (s : string) :
  Forall (fun comp => mem sl comp = false) (Py.split s sl).
Proof.
  induction s as [|c s IH]; [repeat constructor|].
  destruct (Ascii.eqb c sl) eqn:Hc.
  - cbn [Py.split]. rewrite Hc. constructor; [reflexivity | exact IH].
  - destruct (split_cons_other c s Hc) as (h & t & E & ->).
    rewrite E in IH. inversion IH; subst. constructor; [|assumption].
    cbn [mem]. rewrite Ascii.eqb_sym, Hc. assumption.
Qed.

Lemma split_of_slash_free (s : string) :
  mem sl s = false -> Py.split s sl = [s].
Proof.
  induction s as [|c s IH]; [reflexivity|].
  cbn [mem]. destruct (Ascii.eqb sl c) eqn:Hc; [discriminate|].
  intros H. cbn [Py.split]. rewrite Ascii.eqb_sym, Hc, (IH H). reflexivity.
Qed.

Lemma split_join (names : list string) :
  names <> [] ->
  Forall (fun comp => mem sl comp = false) names ->
  Py.split (Py.join "/" names) sl = names.
Proof.
  induction names as [|x rest IH]; [congruence|].
  intros _ H. inversion H as [|? ? Hx Hrest]; subst.
  destruct rest as [|y rest].
  - cbn. apply split_of_slash_free. exact Hx.
  - unfold Py.join in *.
    change (String.concat "/" (x :: y :: rest))
      with (x ++ String sl (String.concat "/" (y :: rest))).
    rewrite split_app, (split_of_slash_free x Hx), IH;
      [reflexivity | discriminate | exact Hrest].
Qed.

Lemma components_app (a b : string) :
  posixpath.components (a ++ String sl b) =
  (posixpath.components a ++ posixpath.components b)%list.
Proof.
  unfold posixpath.components, posixpath.sep.
  rewrite split_app. apply filter_app.
Qed.

Lemma components_mul (k : nat) : posixpath.components (mul "/" k) = [].
Proof.
  induction k as [|k IH]; [reflexivity|].
  rewrite mul_slash_S. change (String sl (mul "/" k)) with ("" ++ String sl (mul "/" k)).
  rewrite components_app, IH. reflexivity.
Qed.

Lemma components_app_mul (s : string) (k : nat) :
  posixpath.components (s ++ mul "/" k) = posixpath.components s.
Proof.
  destruct k as [|k]; [now rewrite append_nil_r|].
  rewrite mul_slash_S, components_app, components_mul. apply app_nil_r.
Qed.

Lemma components_rstrip (s : string) :
  posixpath.components (rstrip s "/") = posixpath.components s.
Proof.
  rewrite (rstrip_decomp s) at 2. now rewrite components_app_mul.
Qed.

(** Leading slashes are those of any prefix that is not made of slashes
    only. *)
Lemma prefix_app_stable (p a x : string) :
  only p sl = true -> only a sl = false ->
  String.prefix p (a ++ x) = String.prefix p a.
Proof.
  revert a. induction p as [|c p IH]; intros a Hp Ha.
  - destruct a; [discriminate | reflexivity].
  - destruct a as [|d a]; [discriminate|].
    cbn [only] in Hp, Ha. apply andb_true_iff in Hp as [Hc Hp].
    apply Ascii.eqb_eq in Hc. subst c.
    cbn [append String.prefix].
    destruct (ascii_dec sl d) as [<-|Hd]; [|reflexivity].
    apply IH; [exact Hp|]. rewrite Ascii.eqb_refl in Ha. exact Ha.
Qed.

Lemma only_rstrip (s : string) : only (rstrip s "/") sl = only s sl.
Proof.
  rewrite (rstrip_decomp s) at 2. rewrite only_app, only_mul. now rewrite andb_true_r.
Qed.

Lemma prefix_rstrip (p s : string) :
  only p sl = true -> only s sl = false ->
  String.prefix p (rstrip s "/") = String.prefix p s.
Proof.
  intros Hp Hs. rewrite (rstrip_decomp s) at 2.
  rewrite prefix_app_stable; [reflexivity | exact Hp |].
  now rewrite only_rstrip.
Qed.

Lemma fold_normpath_components (k : nat) (comps acc : list string) :
  fold_left (posixpath.normpath_step k) comps acc =
  fold_left (posixpath.normpath_step k)
            (filter (fun comp => negb (comp =? "")) comps) acc.
Proof.
  revert acc. induction comps as [|c comps IH]; intros acc; [reflexivity|].
  cbn [fold_left filter]. destruct (c =? "") eqn:E; cbn [negb].
  - apply String.eqb_eq in E. subst c. apply IH.
  - cbn [fold_left]. apply IH.
Qed.

(** [normpath] depends on the leading slashes and the components only. *)
Lemma normpath_congr (a b : string) :
  a <> "" -> b <> "" ->
  startswith a "/" = startswith b "/" ->
  startswith a "//" = startswith b "//" ->
  startswith a "///" = startswith b "///" ->
  posixpath.components a = posixpath.components b ->
  posixpath.normpath a = posixpath.normpath b.
Proof.
  intros Ha Hb H1 H2 H3 Hc. unfold posixpath.normpath.
  apply String.eqb_neq in Ha, Hb. rewrite Ha, Hb, H1, H2, H3.
  rewrite (fold_normpath_components _ (Py.split a _)).
  rewrite (fold_normpath_components _ (Py.split b _)).
  unfold posixpath.components in Hc. rewrite Hc. reflexivity.
Qed.

Lemma normpath_app_slash (t : string) :
  only t sl = false ->
  posixpath.normpath (t ++ "/") = posixpath.normpath t.
Proof.
  intros Ht. apply normpath_congr.
  - intros E. apply append_eq_nil in E. destruct E; discriminate.
  - intros ->. discriminate.
  - apply prefix_app_stable; [reflexivity | exact Ht].
  - apply prefix_app_stable; [reflexivity | exact Ht].
  - apply prefix_app_stable; [reflexivity | exact Ht].
  - change (t ++ "/") with (t ++ String sl ""). rewrite components_app.
    apply app_nil_r.
Qed.

End SplitFacts.

(** ** posixpath.split and filename_for *)

Section FilenameFacts.
Import Py.

Local Abbreviation sl := "/"%char.

Lemma rfind_mem (s : string) (c : ascii) :
  (0 <=? rfind s c)%Z = mem c s.
Proof.
  induction s as [|a s IH]; [reflexivity|].
  cbn [rfind mem]. rewrite <- IH.
  destruct (0 <=? rfind s c)%Z eqn:E.
  - apply Z.leb_le in E.
    destruct (Ascii.eqb c a); apply Z.leb_le; lia.
  - rewrite (Ascii.eqb_sym c a). destruct (Ascii.eqb a c); reflexivity.
Qed.

(** Where [split] and [dirname] cut. *)
Lemma cut_index_cons (a : ascii) (s : string) :
  Z.to_nat (rfind (String a s) sl + 1) =
  if mem sl s then S (Z.to_nat (rfind s sl + 1))
  else if Ascii.eqb a sl then 1 else 0.
Proof.
  cbn [rfind]. rewrite rfind_mem.
  destruct (mem sl s) eqn:E.
  - rewrite <- rfind_mem in E. apply Z.leb_le in E. lia.
  - destruct (Ascii.eqb a sl); reflexivity.
Qed.

Lemma slice_to_0 (p : string) : slice_to p 0 = "".
Proof. destruct p; reflexivity. Qed.

Lemma slice_from_0 (p : string) : slice_from p 0 = p.
Proof. destruct p; reflexivity. Qed.

Lemma slice_append (p : string) (i : nat) : slice_to p i ++ slice_from p i = p.
Proof.
  revert p. induction i as [|i IH]; intros p;
    [destruct p; reflexivity|].
  destruct p as [|a p]; [reflexivity|]. cbn. now rewrite IH.
Qed.

Lemma cut_spec (p : string) :
  let i := Z.to_nat (rfind p sl + 1) in
  mem sl (slice_from p i) = false
  /\ (if mem sl p then endswith (slice_to p i) "/" = true
      else slice_to p i = "").
Proof.
  induction p as [|a p IH]; [split; reflexivity|].
  cbn zeta in *. rewrite cut_index_cons. destruct IH as [IH1 IH2].
  cbn [mem]. destruct (mem sl p) eqn:E.
  - cbn [slice_to slice_from]. split; [exact IH1|].
    assert (endswith (String a (slice_to p (Z.to_nat (rfind p sl + 1)))) "/" = true) as H.
    { rewrite endswith_cons.
      destruct (slice_to p (Z.to_nat (rfind p sl + 1)) =? "") eqn:En;
        [|exact IH2].
      apply String.eqb_eq in En. rewrite En in IH2. discriminate. }
    destruct (Ascii.eqb sl a); exact H.
  - rewrite Ascii.eqb_sym. destruct (Ascii.eqb sl a) eqn:Ea.
    + cbn [slice_to slice_from]. rewrite slice_to_0, slice_from_0.
      apply Ascii.eqb_eq in Ea. subst a.
      split; [exact E | reflexivity].
    + cbn [slice_to slice_from mem]. rewrite Ea.
      split; [exact E | reflexivity].
Qed.

Lemma startswith_slash_free (s : string) :
  mem sl s = false -> startswith s "/" = false.
Proof.
  destruct s as [|a s]; [reflexivity|].
  cbn [mem]. unfold startswith. cbn [String.prefix].
  destruct (ascii_dec sl a) as [<-|H]; [|reflexivity].
  rewrite Ascii.eqb_refl. discriminate.
Qed.

(** [filename_for] either returns the subpath, or squeezes the slashes
    before its last component into one. *)
Lemma filename_for_shape (self : DirectoryReader.t) (t : string) :
  DirectoryReader.filename_for self (Some t) = t
  \/ exists hd tl,
      t = hd ++ tl
      /\ only hd sl = false
      /\ endswith hd "/" = true
      /\ DirectoryReader.filename_for self (Some t) = rstrip hd "/" ++ "/" ++ tl.
Proof.
  unfold DirectoryReader.filename_for, posixpath.split, posixpath.sep.
  pose proof (cut_spec t) as [Htl Hhd]. cbn zeta in Htl, Hhd.
  pose proof (slice_append t (Z.to_nat (rfind t sl + 1))) as Happ.
  set (hd := slice_to t (Z.to_nat (rfind t sl + 1))) in *.
  set (tl := slice_from t (Z.to_nat (rfind t sl + 1))) in *.
  rewrite eqb_mul_only. cbn [posixpath.join fold_left].
  unfold posixpath.join_step. rewrite (startswith_slash_free tl Htl).
  destruct (hd =? "") eqn:E0; cbn [negb andb].
  - left. rewrite E0. cbn [orb]. apply String.eqb_eq in E0.
    rewrite E0 in *. exact Happ.
  - assert (endswith hd "/" = true) as He.
    { destruct (mem sl t); [exact Hhd|].
      rewrite Hhd in E0. discriminate. }
    destruct (only hd sl) eqn:Eo; cbn [negb].
    + left. rewrite E0, He. cbn [orb]. exact Happ.
    + right. exists hd, tl.
      rewrite rstrip_nil_only, Eo, endswith_rstrip. cbn [orb].
      repeat split; auto.
Qed.

Lemma normpath_filename_for (self : DirectoryReader.t) (t : string) :
  t <> "" ->
  DirectoryReader.filename_for self (Some t) <> ""
  /\ posixpath.normpath (DirectoryReader.filename_for self (Some t))
     = posixpath.normpath t.
Proof.
  intros Ht.
  destruct (filename_for_shape self t) as [->|(hd & tl & E & Ho & He & ->)];
    [split; [exact Ht | reflexivity]|].
  assert (only (rstrip hd "/") sl = false) as Hr by now rewrite only_rstrip.
  split.
  - intros H. apply append_eq_nil in H as [H _]. rewrite H in Hr. discriminate.
  - subst t.
    assert (forall p, only p sl = true ->
              startswith (rstrip hd "/" ++ "/" ++ tl) p = startswith (hd ++ tl) p)
      as Hp.
    { intros p Hp. unfold startswith.
      rewrite !prefix_app_stable by assumption.
      apply prefix_rstrip; assumption. }
    apply normpath_congr; try (apply Hp; reflexivity).
    + intros H. apply append_eq_nil in H as [H _]. rewrite H in Hr. discriminate.
    + intros H. apply append_eq_nil in H as [H _]. rewrite H in Ho. discriminate.
    + destruct (endswith_inv hd He) as [hd' ->].
      change ("/" ++ tl) with (String sl tl).
      rewrite components_app, components_rstrip.
      rewrite append_assoc. change ("/" ++ tl) with (String sl tl).
      rewrite components_app.
      change (hd' ++ "/") with (hd' ++ String sl "").
      rewrite components_app. cbn [posixpath.components].
      now rewrite <- app_assoc.
Qed.

Lemma safe_join_one (d x : string) :
  flask.safe_join d [x] =
  let n := if negb (x =? "") then posixpath.normpath x else x in
  if posixpath.isabs n || (n =? "..") || startswith n "../"
  then Raise NotFound
  else Return (posixpath.join_step d n).
Proof.
  unfold flask.safe_join. cbn [fold_left flask.safe_join_step bind].
  cbn zeta.
  destruct (posixpath.isabs _ || _ || _); reflexivity.
Qed.

(** For a subpath that is not empty, passing it through [filename_for]
    changes nothing to what [safe_join] makes of it. *)
Lemma safe_join_filename_for (self : DirectoryReader.t) (d t : string) :
  t <> "" ->
  flask.safe_join d [DirectoryReader.filename_for self (Some t)]
  = flask.safe_join d [t].
Proof.
  intros Ht. destruct (normpath_filename_for self t Ht) as [Hn He].
  rewrite !safe_join_one. cbn zeta.
  apply String.eqb_neq in Ht, Hn. rewrite Ht, Hn. cbn [negb].
  rewrite He. reflexivity.
Qed.

Lemma safe_join_app_slash (d t : string) :
  only t sl = false ->
  flask.safe_join d [t ++ "/"] = flask.safe_join d [t].
Proof.
  intros Ht. rewrite !safe_join_one. cbn zeta.
  assert ((t ++ "/" =? "") = false) as E1.
  { apply String.eqb_neq. intros E. apply append_eq_nil in E as [_ E].
    discriminate. }
  assert ((t =? "") = false) as E2.
  { apply String.eqb_neq. intros ->. discriminate. }
  rewrite E1, E2. cbn [negb]. rewrite (normpath_app_slash t Ht). reflexivity.
Qed.

Lemma safe_join_rstrip (d t : string) :
  only t sl = false ->
  flask.safe_join d [rstrip t "/"] = flask.safe_join d [t].
Proof.
  intros Ht. rewrite (rstrip_decomp t) at 2.
  assert (only (rstrip t "/") sl = false) as Hr by now rewrite only_rstrip.
  induction (trailing t sl) as [|k IH]; [now rewrite append_nil_r|].
  rewrite mul_slash_snoc, <- append_assoc, safe_join_app_slash; [exact IH|].
  rewrite only_app, Hr. reflexivity.
Qed.

(** A subpath made of slashes is refused. *)
Lemma safe_join_only_slashes (d t : string) :
  t <> "" -> only t sl = true -> flask.safe_join d [t] = Raise NotFound.
Proof.
  intros Ht Ho. rewrite safe_join_one. cbn zeta.
  apply String.eqb_neq in Ht. rewrite Ht. cbn [negb].
  assert (posixpath.isabs (posixpath.normpath t) = true) as ->; [|reflexivity].
  unfold posixpath.normpath. rewrite Ht.
  destruct t as [|c t]; [discriminate|].
  cbn [only] in Ho. apply andb_true_iff in Ho as [Hc _].
  apply Ascii.eqb_eq in Hc. subst c.
  assert (startswith (String sl t) "/" = true) as ->.
  { unfold startswith. cbn. destruct (ascii_dec sl sl); [|congruence].
    destruct t; reflexivity. }
  set (comps := Py.split (String sl t) posixpath.sep). clearbody comps.
  destruct (startswith (String sl t) "//" && negb (startswith (String sl t) "///")).
  - set (x := Py.join "/" (rev (fold_left (posixpath.normpath_step 2) comps []))).
    clearbody x. destruct x; reflexivity.
  - set (x := Py.join "/" (rev (fold_left (posixpath.normpath_step 1) comps []))).
    clearbody x. destruct x; reflexivity.
Qed.

End FilenameFacts.

(** ** DirectoryReader.normalize *)

(** C5, as stated, fails at [images//]: the subpath resolves to the
    directory [docs/images], and the result keeps both slashes. *)
Lemma C5_two_slashes_counterexample :
  flask.safe_join (DirectoryReader.directory Example.reader)
    [DirectoryReader.filename_for Example.reader (Some "images//")]
  = Py.Return "docs/images"
  /\ os.isdir Example.h "docs/images" = true
  /\ ~ match DirectoryReader.normalize Example.reader Example.h (Some "images//") with
       | Py.Return (Some r) => Py.trailing r "/" = 1
       | _ => False
       end.
Proof.
  split; [reflexivity|]. split; [reflexivity|].
  vm_compute. discriminate.
Qed.

(** C5, amended: when the subpath resolves to [f], [normalize] returns the
    subpath with its trailing slashes adjusted and nothing else changed: all
    of them are stripped when [f] is not a directory; when [f] is a
    directory one slash is added if there was none and the subpath is
    returned as it is otherwise, so the result ends with as many slashes as
    the subpath had, and with one if it had none. *)
Theorem C5_normalize_trailing_slash :
  forall (self : DirectoryReader.t) (h : os.host) (s f : string),
    flask.safe_join (DirectoryReader.directory self)
      [DirectoryReader.filename_for self (Some s)] = Py.Return f ->
    exists r,
      DirectoryReader.normalize self h (Some s) = Py.Return (Some r)
      /\ r = (if os.isdir h f
              then (if Py.endswith s "/" then s else s ++ "/")
              else Py.rstrip s "/")
      /\ Py.rstrip r "/" = Py.rstrip s "/"
      /\ Py.trailing r "/" =
         (if os.isdir h f then Nat.max 1 (Py.trailing s "/") else 0).
Proof.
  intros self h s f Hf. unfold DirectoryReader.normalize.
  rewrite Hf. cbn [Py.bind].
  destruct (os.isdir h f); cbn [negb].
  - destruct (Py.endswith s "/") eqn:E; cbn [negb].
    + exists s. repeat split.
      pose proof (trailing_slash s E). lia.
    + exists (s ++ "/"). repeat split.
      * apply rstrip_app_slash.
      * rewrite trailing_app_slash, (trailing_no_slash s E). reflexivity.
  - exists (Py.rstrip s "/"). repeat split.
    + apply rstrip_idem.
    + apply trailing_rstrip.
Qed.

Lemma C5_witness :
  exists r,
    DirectoryReader.normalize Example.reader Example.h (Some "images//")
    = Py.Return (Some r)
    /\ r = "images//"
    /\ Py.rstrip r "/" = "images"
    /\ Py.trailing r "/" = 2.
Proof.
  exact (C5_normalize_trailing_slash Example.reader Example.h "images//"
           "docs/images" eq_refl).
Defined.

(** C6, as stated, fails at the empty subpath: for a reader whose
    directory exists it is normalized to ["/"], which [normalize] then
    refuses. *)
Lemma C6_empty_subpath_counterexample :
  ~ (r <- DirectoryReader.normalize Example.reader Example.h (Some "") ;;
     DirectoryReader.normalize Example.reader Example.h r)
    = DirectoryReader.normalize Example.reader Example.h (Some "").
Proof.
  vm_compute. discriminate.
Qed.

(** C6, amended: for every subpath other than the empty string, and with
    the host unchanged, normalizing the result of [normalize] gives that
    result again; when [normalize] raises, so does the second round. *)
Theorem C6_normalize_idempotent :
  forall (self : DirectoryReader.t) (h : os.host) (subpath : option string),
    subpath <> Some "" ->
    (r <- DirectoryReader.normalize self h subpath ;;
     DirectoryReader.normalize self h r)
    = DirectoryReader.normalize self h subpath.
Proof.
  intros self h [s|] Hs; [|reflexivity].
  assert (s <> "") as Hne by congruence.
  unfold DirectoryReader.normalize at 1 3.
  rewrite (safe_join_filename_for self _ s Hne).
  destruct (flask.safe_join (DirectoryReader.directory self) [s])
    as [f|e] eqn:Hj; [|reflexivity].
  cbn [Py.bind].
  destruct (os.isdir h f) eqn:Hd; cbn [negb].
  - destruct (Py.endswith s "/") eqn:He; cbn [negb Py.bind].
    + unfold DirectoryReader.normalize.
      rewrite (safe_join_filename_for self _ s Hne), Hj. cbn [Py.bind].
      rewrite Hd, He. reflexivity.
    + assert (Py.only s "/" = false) as Ho.
      { destruct (Py.only s "/") eqn:Ho; [|reflexivity].
        apply rstrip_only in Ho. rewrite (rstrip_noop s He) in Ho.
        contradiction. }
      unfold DirectoryReader.normalize.
      rewrite safe_join_filename_for.
      * rewrite (safe_join_app_slash _ s Ho), Hj. cbn [Py.bind].
        rewrite Hd, endswith_app_slash. reflexivity.
      * intros E. apply append_eq_nil in E as [_ E]. discriminate.
  - cbn [Py.bind].
    destruct (Py.only s "/") eqn:Ho.
    + rewrite (safe_join_only_slashes _ s Hne Ho) in Hj. discriminate.
    + assert (Py.rstrip s "/" <> "") as Hr.
      { intros E. apply String.eqb_eq in E. rewrite rstrip_nil_only in E.
        congruence. }
      unfold DirectoryReader.normalize.
      rewrite (safe_join_filename_for self _ _ Hr).
      rewrite (safe_join_rstrip _ s Ho), Hj. cbn [Py.bind].
      rewrite Hd, rstrip_idem. reflexivity.
Qed.

Lemma C6_witness :
  Some "images" <> Some ""
  /\ (r <- DirectoryReader.normalize Example.reader Example.h (Some "images") ;;
      DirectoryReader.normalize Example.reader Example.h r)
     = Py.Return (Some "images/").
Proof.
  split; [discriminate|].
  exact (C6_normalize_idempotent Example.reader Example.h (Some "images")
           ltac:(discriminate)).
Defined.

(** ** What safe_join lets through *)

Section NormpathFacts.
Import Py.

Local Abbreviation sl := "/"%char.

Lemma prefix_nil (s : string) : String.prefix "" s = true.
Proof. destruct s; reflexivity. Qed.

(** An absolute path stays absolute. *)
Lemma normpath_abs (x : string) :
  startswith x "/" = true ->
  posixpath.isabs (posixpath.normpath x) = true.
Proof.
  intros Hx. unfold posixpath.normpath.
  destruct (x =? "") eqn:E.
  { apply String.eqb_eq in E. subst x. discriminate. }
  rewrite Hx.
  set (comps := Py.split x posixpath.sep). clearbody comps.
  destruct (startswith x "//" && negb (startswith x "///")).
  - set (y := Py.join "/" (rev (fold_left (posixpath.normpath_step 2) comps []))).
    clearbody y. destruct y; reflexivity.
  - set (y := Py.join "/" (rev (fold_left (posixpath.normpath_step 1) comps []))).
    clearbody y. destruct y; reflexivity.
Qed.

Lemma last_cons_cons (a b : string) (l : list string) (d : string) :
  last (a :: b :: l) d = last (b :: l) d.
Proof. reflexivity. Qed.

Lemma settled_bottom (top : string) (rest : list string) :
  posixpath.settled (top :: rest) -> top = ".." -> last (top :: rest) "" = "..".
Proof.
  intros H Ht.
  destruct (string_dec (last (top :: rest) "") "..") as [E|E]; [exact E|].
  specialize (H E). inversion H; subst. congruence.
Qed.

Lemma normpath_step_settled (stack : list string) (comp : string) :
  posixpath.settled stack -> posixpath.settled (posixpath.normpath_step 0 stack comp).
Proof.
  intros H. unfold posixpath.normpath_step.
  destruct ((comp =? "") || (comp =? ".")); [exact H|].
  destruct (comp =? "..") eqn:Ec; cbn [negb orb Nat.eqb andb].
  - apply String.eqb_eq in Ec. subst comp.
    destruct stack as [|top rest].
    + intros Hl. cbn in Hl. congruence.
    + cbn [orb]. destruct (top =? "..") eqn:Et.
      * apply String.eqb_eq in Et.
        intros Hl. rewrite last_cons_cons in Hl.
        exfalso. apply Hl. exact (settled_bottom top rest H Et).
      * intros Hl. destruct rest as [|r rest]; [constructor|].
        rewrite <- (last_cons_cons top) in Hl.
        specialize (H Hl). inversion H; assumption.
  - apply String.eqb_neq in Ec. intros Hl.
    destruct stack as [|top rest]; [repeat constructor; exact Ec|].
    rewrite last_cons_cons in Hl. constructor; [exact Ec | exact (H Hl)].
Qed.

Lemma normpath_step_slash_free (k : nat) (stack : list string) (comp : string) :
  mem sl comp = false ->
  Forall (fun c => mem sl c = false) stack ->
  Forall (fun c => mem sl c = false) (posixpath.normpath_step k stack comp).
Proof.
  intros Hc H. unfold posixpath.normpath_step.
  destruct ((comp =? "") || (comp =? ".")); [exact H|].
  match goal with |- context [if ?b then _ else _] => destruct b end.
  - constructor; assumption.
  - destruct stack; [exact H | inversion H; assumption].
Qed.

Lemma fold_normpath_invariant (comps stack : list string) :
  Forall (fun c => mem sl c = false) comps ->
  Forall (fun c => mem sl c = false) stack -> posixpath.settled stack ->
  Forall (fun c => mem sl c = false)
         (fold_left (posixpath.normpath_step 0) comps stack)
  /\ posixpath.settled (fold_left (posixpath.normpath_step 0) comps stack).
Proof.
  revert stack. induction comps as [|c comps IH]; intros stack Hc Hs Ht.
  - split; assumption.
  - inversion Hc; subst. cbn [fold_left]. apply IH.
    + assumption.
    + apply normpath_step_slash_free; assumption.
    + apply normpath_step_settled; assumption.
Qed.

Lemma join_dotdot_first (rest : list string) :
  Py.join "/" (".." :: rest) = ".."
  \/ startswith (Py.join "/" (".." :: rest)) "../" = true.
Proof.
  destruct rest as [|y rest]; [left; reflexivity|].
  right. unfold Py.join.
  change (String.concat "/" (".." :: y :: rest))
    with (String "." (String "." (String sl (String.concat "/" (y :: rest))))).
  unfold startswith. cbn. apply prefix_nil.
Qed.

(** A normalized path that passes the three tests of [safe_join] has no
    [..] component. *)
Lemma normpath_accepted (x : string) :
  x <> "" ->
  posixpath.isabs (posixpath.normpath x) = false ->
  (posixpath.normpath x =? "..") = false ->
  startswith (posixpath.normpath x) "../" = false ->
  Forall (fun comp => comp <> "..") (Py.split (posixpath.normpath x) sl).
Proof.
  intros Hx Habs Hdd Hpre.
  destruct (startswith x "/") eqn:Hs.
  { rewrite (normpath_abs x Hs) in Habs. discriminate. }
  unfold posixpath.normpath in *. apply String.eqb_neq in Hx.
  rewrite Hx, Hs in *. cbn [mul append] in *.
  destruct (fold_normpath_invariant (Py.split x posixpath.sep) [])
    as [Hfree Hset].
  { apply split_slash_free. }
  { constructor. }
  { intros _. constructor. }
  set (stack := fold_left (posixpath.normpath_step 0)
                  (Py.split x posixpath.sep) []) in *.
  destruct (rev stack) as [|top rest] eqn:Er.
  - cbn. repeat constructor. discriminate.
  - assert (stack = (rev rest ++ [top])%list) as Es.
    { rewrite <- (rev_involutive stack), Er. reflexivity. }
    destruct (string_dec top "..") as [->|Htop].
    + exfalso. destruct (join_dotdot_first rest) as [E|E].
      * rewrite E in Hdd. cbn in Hdd. discriminate.
      * destruct (Py.join "/" (".." :: rest) =? "") eqn:En; [|congruence].
        apply String.eqb_eq in En. rewrite En in E. discriminate.
    + assert (posixpath.dotdot_free stack) as Hfreedd.
      { apply Hset. rewrite Es, last_last. exact Htop. }
      destruct (Py.join "/" (top :: rest) =? "").
      * cbn. repeat constructor. discriminate.
      * rewrite split_join.
        -- rewrite <- Er. apply Forall_rev. exact Hfreedd.
        -- discriminate.
        -- rewrite <- Er. apply Forall_rev. exact Hfree.
Qed.

End NormpathFacts.

(** ** Path resolution on the host *)

Section WalkFacts.
Import Py os.

Local Abbreviation sl := "/"%char.

Lemma bind_inv {A B : Type} (m : result A) (k : A -> result B) (b : B) :
  (x <- m ;; k x) = Return b -> exists a, m = Return a /\ k a = Return b.
Proof.
  destruct m as [a|e]; cbn; [|discriminate]. intros H. exists a. auto.
Qed.

Lemma walk_app (a b : list string) :
  forall st, walk st (a ++ b)%list = (st' <- walk st a ;; walk st' b).
Proof.
  induction a as [|c a IH]; intros st; [reflexivity|].
  cbn [walk app]. destruct (step st c) as [st1|e]; cbn [bind];
    [apply IH | reflexivity].
Qed.

Lemma step_top_dir (st st' : list node) (c : string) :
  step st c = Return st' -> exists m es up, st = Dir m es :: up.
Proof.
  destruct st as [|[m r d|m es] up]; cbn; try discriminate.
  intros _. exists m, es, up. reflexivity.
Qed.

Lemma walk_top_dir (st st' : list node) (cs : list string) :
  cs <> [] -> walk st cs = Return st' -> exists m es up, st = Dir m es :: up.
Proof.
  destruct cs as [|c cs]; [congruence|]. intros _ H.
  cbn [walk] in H. apply bind_inv in H as (st1 & H & _).
  exact (step_top_dir _ _ _ H).
Qed.

(** Without [..], resolution only goes down. *)
Lemma walk_descends (cs : list string) :
  forall (b : node) (up st' : list node),
    Forall (fun c => c <> "..") cs ->
    walk (b :: up) cs = Return st' ->
    exists n' up', st' = n' :: up' /\ descend b (filter entered cs) = Some n'.
Proof.
  induction cs as [|c cs IH]; intros b up st' Hcs H.
  - cbn in H. inversion H; subst. exists b, up. split; reflexivity.
  - inversion Hcs as [|? ? Hc Hrest]; subst.
    cbn [walk] in H. apply bind_inv in H as (st1 & Hstep & Hwalk).
    destruct b as [m r d|m es]; [discriminate|].
    cbn [step] in Hstep. cbn [filter]. unfold entered at 1.
    destruct ((c =? "") || (c =? ".")); cbn [negb].
    + inversion Hstep; subst st1. exact (IH _ _ _ Hrest Hwalk).
    + apply String.eqb_neq in Hc. rewrite Hc in Hstep.
      destruct (get es c) as [n|] eqn:Hg; [|discriminate].
      inversion Hstep; subst st1.
      destruct (IH _ _ _ Hrest Hwalk) as (n' & up' & E & Hd).
      exists n', up'. split; [exact E|]. cbn [descend]. rewrite Hg. exact Hd.
Qed.

Lemma entered_proper (cs : list string) :
  Forall (fun c => c <> "..") cs ->
  Forall (fun c => mem sl c = false) cs ->
  Forall (fun name => proper name = true) (filter entered cs).
Proof.
  induction cs as [|c cs IH]; intros H1 H2; [constructor|].
  inversion H1; inversion H2; subst. cbn [filter].
  destruct (entered c) eqn:E; [|auto].
  constructor; [|auto]. unfold proper. unfold entered in E.
  apply negb_true_iff in E. rewrite E. cbn [orb].
  match goal with Hc : c <> ".." |- _ => apply String.eqb_neq in Hc; rewrite Hc end.
  match goal with Hm : mem sl c = false |- _ => rewrite Hm end.
  reflexivity.
Qed.

Lemma isabs_app (d x : string) :
  d <> "" -> posixpath.isabs (d ++ x) = posixpath.isabs d.
Proof.
  destruct d as [|c d]; [congruence|]. intros _.
  unfold posixpath.isabs, startswith. cbn [append String.prefix].
  destruct (ascii_dec sl c); [|reflexivity]. now rewrite !prefix_nil.
Qed.

Lemma start_app (h : host) (d x : string) :
  d <> "" -> start h (d ++ x) = start h d.
Proof. intros Hd. unfold start. now rewrite isabs_app. Qed.

Lemma lookup_nonempty (h : host) (p : string) :
  p <> "" -> lookup h p = (st <- start h p ;; walk st (Py.split p sl)).
Proof.
  intros Hp. unfold lookup. apply String.eqb_neq in Hp. now rewrite Hp.
Qed.

Lemma app_nonempty (d x : string) : d <> "" -> d ++ x <> "".
Proof. destruct d; [congruence | discriminate]. Qed.

(** Resolving [d] joined with a relative [n] is resolving [d] and going
    on from there through the components of [n]. *)
Lemma lookup_join_step (h : host) (d n : string) (st' : list node) :
  d <> "" -> startswith n "/" = false ->
  lookup h (posixpath.join_step d n) = Return st' ->
  exists st, lookup h d = Return st /\ walk st (Py.split n sl) = Return st'.
Proof.
  intros Hd Hn. unfold posixpath.join_step. rewrite Hn.
  pose proof Hd as Hd'. apply String.eqb_neq in Hd'. rewrite Hd'. cbn [orb].
  destruct (endswith d "/") eqn:He.
  - destruct (endswith_inv d He) as [d' ->]. intros H.
    rewrite (lookup_nonempty h _ (app_nonempty _ n Hd)) in H.
    rewrite start_app in H by exact Hd.
    rewrite append_assoc in H. change ("/" ++ n) with (String sl n) in H.
    rewrite split_app in H.
    apply bind_inv in H as (st0 & H0 & H). rewrite walk_app in H.
    apply bind_inv in H as (st1 & H1 & H).
    exists st1. split; [|exact H].
    rewrite (lookup_nonempty h _ Hd), H0. cbn [bind].
    rewrite (split_app d' ""), walk_app, H1. cbn [bind].
    destruct (walk_top_dir st1 st' _ (split_nonempty n) H)
      as (m & es & up & ->).
    reflexivity.
  - change ("/" ++ n) with (String sl n).
    rewrite (lookup_nonempty h _ (app_nonempty d _ Hd)).
    rewrite (lookup_nonempty h d Hd).
    rewrite start_app by assumption.
    rewrite split_app.
    intros H. apply bind_inv in H as (st0 & H0 & H). rewrite walk_app in H.
    apply bind_inv in H as (st1 & H1 & H).
    exists st1. split; [|exact H].
    rewrite H0. cbn [bind]. exact H1.
Qed.

Lemma lookup_from_base (self : DirectoryReader.t) (h : host) (n : string)
      (st' : list node) :
  startswith n "/" = false ->
  lookup h (posixpath.join_step (DirectoryReader.directory self) n) = Return st' ->
  exists st,
    DirectoryReader.base self h = Return st
    /\ walk st (Py.split n sl) = Return st'.
Proof.
  intros Hn H. unfold DirectoryReader.base.
  destruct (DirectoryReader.directory self =? "") eqn:Ed.
  - apply String.eqb_eq in Ed. rewrite Ed in H.
    unfold posixpath.join_step in H. rewrite Hn in H. cbn in H.
    unfold lookup in H. destruct (n =? ""); [discriminate|].
    unfold start, posixpath.isabs in H. rewrite Hn in H.
    apply bind_inv in H as (st & H0 & H). exists st. auto.
  - apply String.eqb_neq in Ed. exact (lookup_join_step h _ n st' Ed Hn H).
Qed.

Lemma read_bytes_inv (h : host) (f : string) (data : list byte) :
  io.read_bytes h f = Return data ->
  exists m up, lookup h f = Return (File m true data :: up).
Proof.
  unfold io.read_bytes, stat. intros H.
  apply bind_inv in H as (n & H & Hn).
  apply bind_inv in H as (st & Hl & Hst).
  destruct st as [|n0 up]; [discriminate|]. inversion Hst; subst n0.
  destruct n as [m [|] d|m es]; try discriminate.
  inversion Hn; subst. exists m, up. exact Hl.
Qed.

Lemma read_text_file_inv (h : host) (f : string) (c : content) :
  DirectoryReader.read_text_file h f = Return (Some c) ->
  exists data,
    io.read_bytes h f = Return data
    /\ c = Text (io.translate_newlines (string_of_list_byte data)).
Proof.
  unfold DirectoryReader.read_text_file, io.read_text.
  destruct (io.read_bytes h f) as [data|e]; cbn [bind].
  - unfold io.decode_utf8. destruct (io.utf8_valid data); cbn [bind].
    + intros H. inversion H. exists data. auto.
    + discriminate.
  - destruct e as [ex| |]; try discriminate.
    destruct (errno_eqb ex ENOENT); discriminate.
Qed.

Lemma read_binary_file_inv (h : host) (f : string) (c : content) :
  DirectoryReader.read_binary_file h f = Return (Some c) ->
  exists data, io.read_bytes h f = Return data /\ c = Binary data.
Proof.
  unfold DirectoryReader.read_binary_file.
  destruct (io.read_bytes h f) as [data|e].
  - intros H. inversion H. exists data. auto.
  - destruct e as [ex| |]; try discriminate.
    destruct (errno_eqb ex ENOENT); discriminate.
Qed.

Lemma isdir_nonempty (h : host) (f : string) : isdir h f = true -> f <> "".
Proof. intros H ->. discriminate. Qed.

(** What [find_file] returns is one of the default names joined to the
    directory. *)
Lemma find_file_inv (h : host) (f f' : string) :
  resolver.find_file h f = Some f' ->
  exists name,
    f' = posixpath.join_step f name
    /\ startswith name "/" = false
    /\ Py.split name sl = [name]
    /\ name <> "..".
Proof.
  unfold resolver.find_file.
  destruct (List.find _ constants.DEFAULT_FILENAMES) as [name|] eqn:E;
    [|discriminate].
  intros H. inversion H. exists name. split; [reflexivity|].
  apply find_some in E as [Hin _].
  cbn in Hin.
  repeat (destruct Hin as [<-|Hin];
          [split; [reflexivity | split; [reflexivity | discriminate]]|]).
  contradiction.
Qed.

End WalkFacts.

(** ** DirectoryReader.read stays below the reader's directory *)

Section Containment.
Import Py os.

Local Abbreviation sl := "/"%char.

Lemma below_base (st0 up : list node) (cs : list string) (m : Z)
      (data : list byte) :
  cs <> [] ->
  Forall (fun c => c <> "..") cs ->
  Forall (fun c => mem sl c = false) cs ->
  walk st0 cs = Return (File m true data :: up) ->
  exists B up0 names,
    st0 = B :: up0
    /\ Forall (fun name => proper name = true) names
    /\ descend B names = Some (File m true data).
Proof.
  intros Hne Hdd Hfree H.
  destruct (walk_top_dir _ _ _ Hne H) as (mt & es & up0 & ->).
  destruct (walk_descends cs _ _ _ Hdd H) as (n' & up' & E & Hd).
  inversion E; subst n' up'.
  exists (Dir mt es), up0, (filter entered cs).
  split; [reflexivity|]. split; [|exact Hd].
  apply entered_proper; assumption.
Qed.

(** What [safe_join] returns is the directory joined with a relative
    path free of [..]. *)
Lemma safe_join_inv (d x f : string) :
  flask.safe_join d [x] = Return f ->
  exists n,
    f = posixpath.join_step d n
    /\ startswith n "/" = false
    /\ Forall (fun c => c <> "..") (Py.split n sl).
Proof.
  rewrite safe_join_one. cbn zeta.
  set (n := if negb (x =? "") then posixpath.normpath x else x).
  destruct (posixpath.isabs n || (n =? "..") || startswith n "../") eqn:E;
    [discriminate|].
  intros H. inversion H. exists n. split; [reflexivity|].
  apply orb_false_iff in E as [E E3]. apply orb_false_iff in E as [E1 E2].
  split; [exact E1|].
  subst n. destruct (x =? "") eqn:Ex; cbn [negb] in *.
  - apply String.eqb_eq in Ex. subst x. repeat constructor. discriminate.
  - apply String.eqb_neq in Ex. apply normpath_accepted; assumption.
Qed.

Lemma read_file_inv (h : host) (f : string) (is_text : bool) (c : content) :
  (if is_text then DirectoryReader.read_text_file h f
   else DirectoryReader.read_binary_file h f) = Return (Some c) ->
  exists m data up,
    lookup h f = Return (File m true data :: up)
    /\ (c = Binary data
        \/ c = Text (io.translate_newlines (string_of_list_byte data))).
Proof.
  destruct is_text; intros H.
  - apply read_text_file_inv in H as (data & Hb & ->).
    apply read_bytes_inv in Hb as (m & up & Hl).
    exists m, data, up. auto.
  - apply read_binary_file_inv in H as (data & Hb & ->).
    apply read_bytes_inv in Hb as (m & up & Hl).
    exists m, data, up. auto.
Qed.

End Containment.

(** C1: whatever [read] returns for a subpath is the content, decoded or
    raw, of a readable file reached from the reader's directory by going
    down through proper entry names only, so it lies in the subtree of that
    directory; subpaths that climb out of it, and absolute ones, are refused
    with [NotFound]. *)
Theorem C1_read_stays_below_directory :
  (forall (self : DirectoryReader.t) (h : os.host) (s : string) (c : content),
      DirectoryReader.read self h (Some s) = Py.Return (Some c) ->
      exists B up names mtime data,
        DirectoryReader.base self h = Py.Return (B :: up)
        /\ Forall (fun name => os.proper name = true) names
        /\ os.descend B names = Some (os.File mtime true data)
        /\ (c = Binary data
            \/ c = Text (io.translate_newlines (string_of_list_byte data))))
  /\ DirectoryReader.read Example.reader Example.h (Some "../../etc/passwd")
     = Py.Raise Py.NotFound
  /\ DirectoryReader.read Example.reader Example.h (Some "images/../../../etc/passwd")
     = Py.Raise Py.NotFound
  /\ DirectoryReader.read Example.reader Example.h (Some "/etc/passwd")
     = Py.Raise Py.NotFound.
Proof.
  split; [|repeat split; reflexivity].
  intros self h s c. unfold DirectoryReader.read. intros H.
  apply bind_inv in H as (f & Hj & H).
  apply safe_join_inv in Hj as (n & -> & Hn & Hdd).
  set (f := posixpath.join_step (DirectoryReader.directory self) n) in *.
  destruct (os.isdir h f) eqn:Hd.
  - destruct (resolver.find_file h f) as [f'|] eqn:Hf; [|discriminate].
    apply read_file_inv in H as (m & data & up & Hl & Hc).
    apply find_file_inv in Hf as (name & -> & Hname & Hsplit & Hnd).
    apply lookup_join_step in Hl as (st1 & Hl1 & Hw1);
      [| exact (isdir_nonempty h f Hd) | exact Hname].
    apply lookup_from_base in Hl1 as (st0 & Hb & Hw0); [|exact Hn].
    assert (os.walk st0 (Py.split n "/" ++ Py.split name "/")%list
            = Py.Return (os.File m true data :: up)) as Hw.
    { rewrite walk_app, Hw0. exact Hw1. }
    apply below_base in Hw as (B & up0 & names & -> & Hp & Hdesc).
    + exists B, up0, names, m, data. auto.
    + intros E. apply app_eq_nil in E as [E _]. exact (split_nonempty n E).
    + apply Forall_app. split; [exact Hdd|]. rewrite Hsplit.
      repeat constructor. exact Hnd.
    + apply Forall_app. split; apply split_slash_free.
  - apply read_file_inv in H as (m & data & up & Hl & Hc).
    apply lookup_from_base in Hl as (st0 & Hb & Hw); [|exact Hn].
    apply below_base in Hw as (B & up0 & names & -> & Hp & Hdesc).
    + exists B, up0, names, m, data. auto.
    + apply split_nonempty.
    + exact Hdd.
    + apply split_slash_free.
Qed.

(** [images/../guide.md] is read from [guide.md], one step below
    [/srv/docs]. *)
Lemma C1_witness :
  exists B up names mtime data,
    DirectoryReader.base Example.reader Example.h = Py.Return (B :: up)
    /\ Forall (fun name => os.proper name = true) names
    /\ os.descend B names = Some (os.File mtime true data)
    /\ (Text "Guide" = Binary data
        \/ Text "Guide" = Text (io.translate_newlines (string_of_list_byte data))).
Proof.
  exact (proj1 C1_read_stays_below_directory Example.reader Example.h
           "images/../guide.md" (Text "Guide") eq_refl).
Defined.

(* ------------------------------------------------------------------ *)
(** * Further properties of the readers *)

(** ** Which subpaths are refused *)

Section RefusalFacts.
Import Py os.

Local Abbreviation sl := "/"%char.

Lemma step_raises (st : list node) (c : string) (e : exn) :
  step st c = Raise e -> exists en, e = IOError en.
Proof.
  destruct st as [|[m r d|m es] up]; cbn.
  - intros H. inversion H. eauto.
  - intros H. inversion H. eauto.
  - destruct ((c =? "") || (c =? ".")); [discriminate|].
    destruct (c =? ".."); [discriminate|].
    destruct (get es c); [discriminate|].
    intros H. inversion H. eauto.
Qed.

Lemma walk_raises (cs : list string) :
  forall (st : list node) (e : exn),
    walk st cs = Raise e -> exists en, e = IOError en.
Proof.
  induction cs as [|c cs IH]; intros st e; cbn [walk]; [discriminate|].
  destruct (step st c) as [st1|e1] eqn:Hs; cbn [bind].
  - apply IH.
  - intros H. inversion H; subst. exact (step_raises _ _ _ Hs).
Qed.

Lemma lookup_raises (h : host) (p : string) (e : exn) :
  lookup h p = Raise e -> exists en, e = IOError en.
Proof.
  unfold lookup. destruct (p =? "").
  - intros H. inversion H. eauto.
  - unfold start. destruct (posixpath.isabs p); cbn [bind].
    + apply walk_raises.
    + destruct (walk [root h] (cwd h)) as [st|e0] eqn:Hw; cbn [bind].
      * apply walk_raises.
      * intros H. inversion H; subst. exact (walk_raises _ _ _ Hw).
Qed.

Lemma read_bytes_raises (h : host) (f : string) (e : exn) :
  io.read_bytes h f = Raise e -> exists en, e = IOError en.
Proof.
  unfold io.read_bytes, stat.
  destruct (lookup h f) as [[|n up]|e0] eqn:Hl; cbn [bind].
  - intros H. inversion H. eauto.
  - destruct n as [m [|] d|m es]; try discriminate;
      intros H; inversion H; eauto.
  - intros H. inversion H; subst. exact (lookup_raises _ _ _ Hl).
Qed.

Lemma read_text_file_raises (h : host) (f : string) (e : exn) :
  DirectoryReader.read_text_file h f = Raise e -> e <> NotFound.
Proof.
  unfold DirectoryReader.read_text_file, io.read_text.
  destruct (io.read_bytes h f) as [data|e0] eqn:Hb; cbn [bind].
  - unfold io.decode_utf8. destruct (io.utf8_valid data); cbn [bind];
      [discriminate|]. intros H. inversion H. discriminate.
  - destruct (read_bytes_raises _ _ _ Hb) as [en ->].
    destruct (errno_eqb en ENOENT); [discriminate|].
    intros H. inversion H. discriminate.
Qed.

Lemma read_binary_file_raises (h : host) (f : string) (e : exn) :
  DirectoryReader.read_binary_file h f = Raise e -> e <> NotFound.
Proof.
  unfold DirectoryReader.read_binary_file.
  destruct (io.read_bytes h f) as [data|e0] eqn:Hb; [discriminate|].
  destruct (read_bytes_raises _ _ _ Hb) as [en ->].
  destruct (errno_eqb en ENOENT); [discriminate|].
  intros H. inversion H. discriminate.
Qed.

(** Once [safe_join] has let the path through, [read] does not raise
    [NotFound]. *)
Lemma read_tail_not_refused (h : host) (s f : string) :
  match (if isdir h f then resolver.find_file h f else Some f) with
  | None => Return None
  | Some filename =>
      if negb (truthy (DirectoryReader.is_binary h (Some s)))
      then DirectoryReader.read_text_file h filename
      else DirectoryReader.read_binary_file h filename
  end <> Raise NotFound.
Proof.
  destruct (if isdir h f then resolver.find_file h f else Some f) as [g|];
    [|discriminate].
  destruct (negb (truthy (DirectoryReader.is_binary h (Some s)))); intros H.
  - exact (read_text_file_raises _ _ _ H eq_refl).
  - exact (read_binary_file_raises _ _ _ H eq_refl).
Qed.

(** For a subpath that is not empty, [read] and [normalize] see the
    outcome of [safe_join] on the subpath itself. *)
Lemma read_unfold (self : DirectoryReader.t) (h : host) (s : string) :
  s <> "" ->
  DirectoryReader.read self h (Some s) =
  (filename <- flask.safe_join (DirectoryReader.directory self) [s] ;;
   match (if isdir h filename then resolver.find_file h filename
          else Some filename) with
   | None => Return None
   | Some filename =>
       if negb (truthy (DirectoryReader.is_binary h (Some s)))
       then DirectoryReader.read_text_file h filename
       else DirectoryReader.read_binary_file h filename
   end).
Proof.
  intros Hs. unfold DirectoryReader.read.
  rewrite (safe_join_filename_for self _ s Hs). reflexivity.
Qed.

Lemma normalize_unfold (self : DirectoryReader.t) (h : host) (s : string) :
  s <> "" ->
  DirectoryReader.normalize self h (Some s) =
  (filename <- flask.safe_join (DirectoryReader.directory self) [s] ;;
   if negb (isdir h filename) then Return (Some (rstrip s "/"))
   else if negb (endswith s "/") then Return (Some (s ++ "/"))
   else Return (Some s)).
Proof.
  intros Hs. unfold DirectoryReader.normalize.
  rewrite (safe_join_filename_for self _ s Hs). reflexivity.
Qed.

Lemma refused_iff (self : DirectoryReader.t) (h : host) (s : string) :
  s <> "" ->
  (DirectoryReader.read self h (Some s) = Raise NotFound <->
   flask.safe_join (DirectoryReader.directory self) [s] = Raise NotFound)
  /\ (forall e, DirectoryReader.normalize self h (Some s) = Raise e <->
                flask.safe_join (DirectoryReader.directory self) [s] = Raise e).
Proof.
  intros Hs. rewrite (read_unfold self h s Hs), (normalize_unfold self h s Hs).
  destruct (flask.safe_join (DirectoryReader.directory self) [s]) as [f|e0];
    cbn [bind].
  - split.
    + split; [|discriminate]. intros H.
      exfalso. exact (read_tail_not_refused h s f H).
    + intros e. destruct (negb (isdir h f)); [split; discriminate|].
      destruct (negb (endswith s "/")); split; discriminate.
  - split; [split; congruence | intros e; split; congruence].
Qed.

(** The bottom of the stack of [normpath]: once [..] is there, it stays. *)
Lemma normpath_step_bottom (stack : list string) (comp : string) :
  last stack "" = ".." ->
  last (posixpath.normpath_step 0 stack comp) "" = "..".
Proof.
  intros H. unfold posixpath.normpath_step.
  destruct ((comp =? "") || (comp =? ".")); [exact H|].
  destruct stack as [|top rest]; [discriminate|].
  cbn [negb orb Nat.eqb andb].
  destruct (negb (comp =? "..") || false || (top =? "..")) eqn:E.
  - rewrite last_cons_cons. exact H.
  - apply orb_false_iff in E as [_ Et]. apply String.eqb_neq in Et.
    destruct rest as [|r rest]; [cbn in H; congruence|].
    rewrite last_cons_cons in H. exact H.
Qed.

Lemma fold_normpath_bottom (comps stack : list string) :
  last stack "" = ".." ->
  last (fold_left (posixpath.normpath_step 0) comps stack) "" = "..".
Proof.
  revert stack. induction comps as [|c comps IH]; intros stack H; [exact H|].
  cbn [fold_left]. apply IH, normpath_step_bottom, H.
Qed.

Lemma last_rev_head (stack : list string) :
  last stack "" = ".." -> exists rest, rev stack = ".." :: rest.
Proof.
  intros H. destruct (rev stack) as [|x rest] eqn:E.
  - apply (f_equal (@rev string)) in E. rewrite rev_involutive in E.
    subst stack. discriminate.
  - assert (stack = (rev rest ++ [x])%list) as Es.
    { rewrite <- (rev_involutive stack), E. reflexivity. }
    rewrite Es, last_last in H. subst x. eauto.
Qed.

(** A path that starts by climbing is normalized to one that does. *)
Lemma normpath_climbs (r : string) :
  let n := posixpath.normpath (".." ++ String sl r) in
  n = ".." \/ startswith n "../" = true.
Proof.
  cbn zeta. unfold posixpath.normpath, posixpath.sep.
  rewrite split_app.
  change (".." ++ String sl r =? "") with false.
  change (startswith (".." ++ String sl r) "/") with false.
  cbn [mul append]. change (Py.split ".." sl) with [".."].
  cbn [app fold_left].
  change (posixpath.normpath_step 0 [] "..") with [".."].
  destruct (last_rev_head
              (fold_left (posixpath.normpath_step 0) (Py.split r sl) [".."])
              (fold_normpath_bottom _ [".."] eq_refl)) as [rest ->].
  destruct (join_dotdot_first rest) as [E|E].
  - rewrite E. left. reflexivity.
  - destruct (Py.join "/" (".." :: rest) =? "") eqn:En.
    + apply String.eqb_eq in En. rewrite En in E. discriminate.
    + right. exact E.
Qed.

Lemma startswith_inv (s p : string) :
  startswith s p = true -> exists r, s = p ++ r.
Proof.
  unfold startswith. revert s. induction p as [|c p IH]; intros s H.
  - exists s. reflexivity.
  - destruct s as [|d s]; [discriminate|]. cbn [String.prefix] in H.
    destruct (ascii_dec c d) as [<-|]; [|discriminate].
    destruct (IH s H) as [r ->]. exists r. reflexivity.
Qed.

End RefusalFacts.

Section ResolutionFacts.
Import Py os.

Lemma safe_join_escapes (d s : string) :
  s <> "" ->
  flask.safe_join d [s] =
  if posixpath.isabs (posixpath.normpath s)
     || (posixpath.normpath s =? "..")
     || startswith (posixpath.normpath s) "../"
  then Raise NotFound
  else Return (posixpath.join_step d (posixpath.normpath s)).
Proof.
  intros Hs. rewrite safe_join_one. cbn zeta.
  apply String.eqb_neq in Hs. rewrite Hs. reflexivity.
Qed.

Lemma opened_file_unfold (self : DirectoryReader.t) (h : host) (s : string) :
  s <> "" ->
  DirectoryReader.opened_file self h (Some s) =
  (filename <- flask.safe_join (DirectoryReader.directory self) [s] ;;
   Return (if isdir h filename then resolver.find_file h filename
           else Some filename)).
Proof.
  intros Hs. unfold DirectoryReader.opened_file.
  rewrite (safe_join_filename_for self _ s Hs). reflexivity.
Qed.

Lemma not_only_nonempty (s : string) : only s "/" = false -> s <> "".
Proof. intros H ->. discriminate. Qed.

End ResolutionFacts.

(** X1: for a subpath that is not empty, [read] raises [NotFound] exactly
    when the normalized subpath is absolute, is [..] or starts with [../];
    [normalize] raises in exactly the same cases, and raises nothing
    else. *)
Theorem X1_refused_iff_normal_form_escapes :
  forall (self : DirectoryReader.t) (h : os.host) (s : string),
    s <> "" ->
    let n := posixpath.normpath s in
    let escapes := posixpath.isabs n || (n =? "..") || Py.startswith n "../" in
    (DirectoryReader.read self h (Some s) = Py.Raise Py.NotFound
     <-> escapes = true)
    /\ (DirectoryReader.normalize self h (Some s) = Py.Raise Py.NotFound
        <-> escapes = true)
    /\ (forall e, DirectoryReader.normalize self h (Some s) = Py.Raise e ->
                  e = Py.NotFound).
Proof.
  intros self h s Hs n escapes.
  destruct (refused_iff self h s Hs) as [Hr Hn].
  pose proof (safe_join_escapes (DirectoryReader.directory self) s Hs) as Hj.
  fold n in Hj. fold escapes in Hj.
  split; [|split].
  - rewrite Hr, Hj. destruct escapes; split; congruence.
  - rewrite (Hn Py.NotFound), Hj. destruct escapes; split; congruence.
  - intros e He. apply Hn in He. rewrite Hj in He.
    destruct escapes; congruence.
Qed.

Lemma X1_witness :
  DirectoryReader.read Example.reader Example.h (Some "images/../../x")
  = Py.Raise Py.NotFound.
Proof.
  exact (proj2 (proj1 (X1_refused_iff_normal_form_escapes
                         Example.reader Example.h "images/../../x"
                         ltac:(discriminate)))
               eq_refl).
Defined.

(** X2: a subpath that starts with a slash is refused by [read] and by
    [normalize], whatever the reader and the host. *)
Theorem X2_absolute_subpath_refused :
  forall (self : DirectoryReader.t) (h : os.host) (s : string),
    Py.startswith s "/" = true ->
    DirectoryReader.read self h (Some s) = Py.Raise Py.NotFound
    /\ DirectoryReader.normalize self h (Some s) = Py.Raise Py.NotFound.
Proof.
  intros self h s Hs.
  assert (s <> "") as Hne by (intros ->; discriminate).
  destruct (refused_iff self h s Hne) as [Hr Hn].
  assert (flask.safe_join (DirectoryReader.directory self) [s]
          = Py.Raise Py.NotFound) as Hj.
  { rewrite (safe_join_escapes _ s Hne), (normpath_abs s Hs). reflexivity. }
  split; [apply Hr | apply Hn]; exact Hj.
Qed.

Lemma X2_witness :
  DirectoryReader.read Example.reader Example.h (Some "/srv/docs/guide.md")
  = Py.Raise Py.NotFound
  /\ DirectoryReader.normalize Example.reader Example.h (Some "/srv/docs/guide.md")
     = Py.Raise Py.NotFound.
Proof.
  exact (X2_absolute_subpath_refused Example.reader Example.h
           "/srv/docs/guide.md" eq_refl).
Defined.

(** X3: the subpath [..] and every subpath that starts with [../] are
    refused by [read] and by [normalize]: what follows the first component
    cannot bring the path back inside. *)
Theorem X3_climbing_subpath_refused :
  forall (self : DirectoryReader.t) (h : os.host) (s : string),
    s = ".." \/ Py.startswith s "../" = true ->
    DirectoryReader.read self h (Some s) = Py.Raise Py.NotFound
    /\ DirectoryReader.normalize self h (Some s) = Py.Raise Py.NotFound.
Proof.
  intros self h s Hs.
  assert (s <> "") as Hne.
  { destruct Hs as [->|Hs]; [discriminate|]. intros ->. discriminate. }
  destruct (refused_iff self h s Hne) as [Hr Hn].
  assert (flask.safe_join (DirectoryReader.directory self) [s]
          = Py.Raise Py.NotFound) as Hj.
  { rewrite (safe_join_escapes _ s Hne).
    destruct Hs as [->|Hs]; [reflexivity|].
    destruct (startswith_inv s "../" Hs) as [r ->].
    destruct (normpath_climbs r) as [E|E].
    - change ("../" ++ r) with (".." ++ String "/" r). rewrite E. reflexivity.
    - change ("../" ++ r) with (".." ++ String "/" r). rewrite E.
      now rewrite orb_true_r. }
  split; [apply Hr | apply Hn]; exact Hj.
Qed.

Lemma X3_witness :
  DirectoryReader.read Example.reader Example.h (Some "../docs/guide.md")
  = Py.Raise Py.NotFound
  /\ DirectoryReader.normalize Example.reader Example.h (Some "../docs/guide.md")
     = Py.Raise Py.NotFound.
Proof.
  exact (X3_climbing_subpath_refused Example.reader Example.h
           "../docs/guide.md" (or_intror eq_refl)).
Defined.

(** X4: two subpaths, neither empty, with the same normal form are
    resolved alike: [safe_join] gives the same outcome on what
    [filename_for] makes of them, and [read] opens the same file. *)
Theorem X4_same_normal_form_same_file :
  forall (self : DirectoryReader.t) (h : os.host) (s1 s2 : string),
    s1 <> "" -> s2 <> "" ->
    posixpath.normpath s1 = posixpath.normpath s2 ->
    flask.safe_join (DirectoryReader.directory self)
      [DirectoryReader.filename_for self (Some s1)]
    = flask.safe_join (DirectoryReader.directory self)
        [DirectoryReader.filename_for self (Some s2)]
    /\ DirectoryReader.opened_file self h (Some s1)
       = DirectoryReader.opened_file self h (Some s2).
Proof.
  intros self h s1 s2 H1 H2 Hn.
  assert (flask.safe_join (DirectoryReader.directory self) [s1]
          = flask.safe_join (DirectoryReader.directory self) [s2]) as Hj.
  { rewrite (safe_join_escapes _ s1 H1), (safe_join_escapes _ s2 H2), Hn.
    reflexivity. }
  split.
  - rewrite !safe_join_filename_for by assumption. exact Hj.
  - rewrite !opened_file_unfold by assumption. rewrite Hj. reflexivity.
Qed.

Lemma X4_witness :
  DirectoryReader.opened_file Example.reader Example.h
    (Some "images/..//./guide.md")
  = DirectoryReader.opened_file Example.reader Example.h (Some "guide.md").
Proof.
  exact (proj2 (X4_same_normal_form_same_file Example.reader Example.h
                  "images/..//./guide.md" "guide.md"
                  ltac:(discriminate) ltac:(discriminate) eq_refl)).
Defined.

(** X5: when [normalize] returns a subpath for one that is not empty, the
    returned subpath is not empty either and [read] opens the same file for
    it as for the original. *)
Theorem X5_normalize_keeps_the_file :
  forall (self : DirectoryReader.t) (h : os.host) (s r : string),
    s <> "" ->
    DirectoryReader.normalize self h (Some s) = Py.Return (Some r) ->
    r <> ""
    /\ DirectoryReader.opened_file self h (Some r)
       = DirectoryReader.opened_file self h (Some s).
Proof.
  intros self h s r Hs H.
  rewrite (normalize_unfold self h s Hs) in H.
  apply bind_inv in H as (f & Hj & H).
  assert (Py.only s "/" = false) as Ho.
  { destruct (Py.only s "/") eqn:Ho; [|reflexivity].
    rewrite (safe_join_only_slashes _ s Hs Ho) in Hj. discriminate. }
  assert (r <> ""
          /\ flask.safe_join (DirectoryReader.directory self) [r]
             = flask.safe_join (DirectoryReader.directory self) [s])
    as [Hr Hjr].
  { destruct (negb (os.isdir h f)).
    - inversion H; subst r. split.
      + apply not_only_nonempty. now rewrite only_rstrip.
      + apply safe_join_rstrip. exact Ho.
    - destruct (negb (Py.endswith s "/")); inversion H; subst r.
      + split; [|apply safe_join_app_slash; exact Ho].
        intros E. apply append_eq_nil in E as [_ E]. discriminate.
      + split; [exact Hs | reflexivity]. }
  split; [exact Hr|].
  rewrite !opened_file_unfold by assumption. rewrite Hjr. reflexivity.
Qed.

Lemma X5_witness :
  "guide.md" <> ""
  /\ DirectoryReader.opened_file Example.reader Example.h (Some "guide.md")
     = DirectoryReader.opened_file Example.reader Example.h (Some "guide.md//").
Proof.
  exact (X5_normalize_keeps_the_file Example.reader Example.h
           "guide.md//" "guide.md" ltac:(discriminate) eq_refl).
Defined.

(** X6: the kind of content [read] returns for a subpath is the one
    [is_binary] announces for that subpath: bytes only when it is truthy,
    text only when it is falsy. *)
Theorem X6_content_kind_follows_is_binary :
  forall (self : DirectoryReader.t) (h : os.host) (s : string) (c : content),
    DirectoryReader.read self h (Some s) = Py.Return (Some c) ->
    match c with
    | Binary _ => Py.truthy (DirectoryReader.is_binary h (Some s)) = true
    | Text _ => Py.truthy (DirectoryReader.is_binary h (Some s)) = false
    end.
Proof.
  intros self h s c H. unfold DirectoryReader.read in H.
  apply bind_inv in H as (f & _ & H).
  destruct (if os.isdir h f then resolver.find_file h f else Some f) as [g|];
    [|discriminate].
  destruct (Py.truthy (DirectoryReader.is_binary h (Some s))); cbn [negb] in H.
  - apply read_binary_file_inv in H as (data & _ & ->). reflexivity.
  - apply read_text_file_inv in H as (data & _ & ->). reflexivity.
Qed.

Lemma X6_witness :
  Py.truthy (DirectoryReader.is_binary Example.h (Some "logo.png")) = true.
Proof.
  exact (X6_content_kind_follows_is_binary Example.reader Example.h
           "logo.png" (Binary Example.png) eq_refl).
Defined.

(** ** filename_for *)

Section FilenameForFacts.
Import Py.

Local Abbreviation sl := "/"%char.

Lemma mem_app (c : ascii) (a b : string) :
  mem c (a ++ b) = mem c a || mem c b.
Proof.
  induction a as [|x a IH]; [reflexivity|].
  cbn [append mem]. rewrite IH. destruct (Ascii.eqb c x); reflexivity.
Qed.

Lemma mem_endswith (s : string) : endswith s "/" = true -> mem sl s = true.
Proof.
  intros H. destruct (endswith_inv s H) as [s' ->].
  rewrite mem_app. cbn. apply orb_true_r.
Qed.

(** Cutting at the last slash, when what follows it is known. *)
Lemma cut_app (a tl : string) :
  mem sl tl = false ->
  let p := a ++ String sl tl in
  slice_to p (Z.to_nat (rfind p sl + 1)) = a ++ "/"
  /\ slice_from p (Z.to_nat (rfind p sl + 1)) = tl.
Proof.
  intros Htl. cbn zeta. induction a as [|c a [IH1 IH2]].
  - cbn [append]. rewrite cut_index_cons, Htl, Ascii.eqb_refl.
    cbn [slice_to slice_from]. rewrite slice_to_0, slice_from_0. split; reflexivity.
  - cbn [append]. rewrite cut_index_cons.
    replace (mem sl (a ++ String sl tl)) with true.
    + cbn [slice_to slice_from]. rewrite IH1, IH2. split; reflexivity.
    + symmetry. rewrite mem_app. cbn. apply orb_true_r.
Qed.

(** A path whose last component is preceded by exactly one slash is left
    alone. *)
Lemma filename_for_squeezed (self : DirectoryReader.t) (r tl : string) :
  only r sl = false -> endswith r "/" = false -> mem sl tl = false ->
  DirectoryReader.filename_for self (Some (r ++ "/" ++ tl)) = r ++ "/" ++ tl.
Proof.
  intros Ho He Htl.
  unfold DirectoryReader.filename_for, posixpath.split, posixpath.sep.
  change (r ++ "/" ++ tl) with (r ++ String sl tl).
  destruct (cut_app r tl Htl) as [E1 E2]. cbn zeta in E1, E2.
  rewrite E1, E2, eqb_mul_only, only_app, Ho. cbn [andb negb].
  assert ((r ++ "/" =? "") = false) as ->.
  { apply String.eqb_neq. intros E. apply append_eq_nil in E as [_ E].
    discriminate. }
  cbn [negb andb posixpath.join fold_left]. unfold posixpath.join_step.
  rewrite (startswith_slash_free tl Htl), rstrip_app_slash, (rstrip_noop r He), He.
  assert ((r =? "") = false) as ->.
  { apply String.eqb_neq. intros ->. discriminate. }
  reflexivity.
Qed.

Lemma filename_for_cases (self : DirectoryReader.t) (t : string) :
  DirectoryReader.filename_for self (Some t) = t
  \/ exists hd tl,
      t = hd ++ tl
      /\ only hd sl = false
      /\ endswith hd "/" = true
      /\ mem sl tl = false
      /\ DirectoryReader.filename_for self (Some t) = rstrip hd "/" ++ "/" ++ tl.
Proof.
  destruct (filename_for_shape self t) as [E|(hd & tl & Et & Ho & He & E)];
    [left; exact E|].
  destruct (mem sl tl) eqn:Htl.
  - (* the cut leaves no slash after it; recover that from the source *)
    unfold DirectoryReader.filename_for, posixpath.split, posixpath.sep in *.
    pose proof (cut_spec t) as [Hfree Hhd]. cbn zeta in Hfree, Hhd.
    pose proof (slice_append t (Z.to_nat (rfind t sl + 1))) as Happ.
    set (hd0 := slice_to t (Z.to_nat (rfind t sl + 1))) in *.
    set (tl0 := slice_from t (Z.to_nat (rfind t sl + 1))) in *.
    rewrite eqb_mul_only in *. cbn [posixpath.join fold_left] in *.
    unfold posixpath.join_step in *.
    rewrite (startswith_slash_free tl0 Hfree) in *.
    destruct (hd0 =? "") eqn:E0; cbn [negb andb orb] in *.
    + left. apply String.eqb_eq in E0. rewrite E0 in *. exact Happ.
    + assert (endswith hd0 "/" = true) as He0.
      { destruct (mem sl t); [exact Hhd|]. rewrite Hhd in E0. discriminate. }
      destruct (only hd0 sl) eqn:Eo; cbn [negb] in *.
      * left. rewrite E0, He0. cbn [orb]. exact Happ.
      * right. exists hd0, tl0.
        rewrite rstrip_nil_only, Eo, endswith_rstrip. cbn [orb].
        repeat split; auto.
  - right. exists hd, tl. repeat split; auto.
Qed.

End FilenameForFacts.

(** X7: [filename_for] settles at once: applied to its own result it
    returns that result.  It leaves a subpath without a slash as it is, and
    for a subpath that is not empty it does not change the normal form. *)
Theorem X7_filename_for_settles :
  forall (self : DirectoryReader.t) (s : string),
    DirectoryReader.filename_for self
      (Some (DirectoryReader.filename_for self (Some s)))
    = DirectoryReader.filename_for self (Some s)
    /\ (Py.mem "/" s = false -> DirectoryReader.filename_for self (Some s) = s)
    /\ (s <> "" ->
        posixpath.normpath (DirectoryReader.filename_for self (Some s))
        = posixpath.normpath s).
Proof.
  intros self s. split; [|split].
  - destruct (filename_for_cases self s)
      as [E|(hd & tl & Et & Ho & He & Htl & E)].
    + rewrite E. exact E.
    + rewrite E. apply filename_for_squeezed.
      * now rewrite only_rstrip.
      * apply endswith_rstrip.
      * exact Htl.
  - intros Hs.
    destruct (filename_for_cases self s)
      as [E|(hd & tl & Et & Ho & He & Htl & E)]; [exact E|].
    subst s. rewrite mem_app, (mem_endswith hd He) in Hs. discriminate.
  - intros Hs. exact (proj2 (normpath_filename_for self s Hs)).
Qed.

(** ** MIME types look at the last component only *)

Section SplitextFacts.
Import Py.

Local Abbreviation sl := "/"%char.

Lemma rfind_bounds (s : string) (c : ascii) :
  (-1 <= rfind s c < Z.of_nat (String.length s))%Z.
Proof.
  induction s as [|a s IH]; cbn [rfind String.length]; [lia|].
  destruct (0 <=? rfind s c)%Z eqn:E.
  - apply Z.leb_le in E. lia.
  - destruct (Ascii.eqb a c); lia.
Qed.

Lemma rfind_absent (s : string) (c : ascii) :
  mem c s = false -> rfind s c = (-1)%Z.
Proof.
  intros H. rewrite <- rfind_mem in H. apply Z.leb_gt in H.
  pose proof (rfind_bounds s c). lia.
Qed.

Lemma length_app (a b : string) :
  String.length (a ++ b) = String.length a + String.length b.
Proof. induction a as [|x a IH]; cbn; [reflexivity | now rewrite IH]. Qed.

Lemma rfind_app (a b : string) (c : ascii) :
  rfind (a ++ b) c =
  if (0 <=? rfind b c)%Z then (Z.of_nat (String.length a) + rfind b c)%Z
  else rfind a c.
Proof.
  induction a as [|x a IH].
  - cbn [append String.length rfind]. destruct (0 <=? rfind b c)%Z eqn:E.
    + lia.
    + apply Z.leb_gt in E. pose proof (rfind_bounds b c). lia.
  - cbn [append rfind String.length]. rewrite IH.
    destruct (0 <=? rfind b c)%Z eqn:E.
    + apply Z.leb_le in E.
      replace (0 <=? Z.of_nat (String.length a) + rfind b c)%Z with true
        by (symmetry; apply Z.leb_le; lia).
      lia.
    + reflexivity.
Qed.

Lemma slice_to_app (a b : string) (i : nat) :
  slice_to (a ++ b) (String.length a + i) = a ++ slice_to b i.
Proof.
  induction a as [|x a IH]; [reflexivity|].
  cbn [append String.length Nat.add slice_to]. now rewrite IH.
Qed.

Lemma slice_from_app (a b : string) (i : nat) :
  slice_from (a ++ b) (String.length a + i) = slice_from b i.
Proof.
  induction a as [|x a IH]; [reflexivity|].
  cbn [append String.length Nat.add slice_from]. exact IH.
Qed.

Lemma mem_slice_to (c : ascii) (s : string) (i : nat) :
  mem c s = false -> mem c (slice_to s i) = false.
Proof.
  revert s. induction i as [|i IH]; intros s H.
  - now rewrite slice_to_0.
  - destruct s as [|a s]; [reflexivity|].
    cbn [slice_to mem] in *. destruct (Ascii.eqb c a); [discriminate|].
    apply IH. exact H.
Qed.

Lemma splitext_free (name : string) :
  mem sl name = false -> mem sl (fst (posixpath.splitext name)) = false.
Proof.
  intros H. unfold posixpath.splitext.
  destruct (_ <? _)%Z; [|exact H].
  cbn zeta. destruct (negb _); [|exact H].
  apply mem_slice_to. exact H.
Qed.

(** The extension of a path is that of its last component. *)
Lemma splitext_prefix (d name : string) :
  mem sl name = false ->
  posixpath.splitext ((d ++ "/") ++ name)
  = ((d ++ "/") ++ fst (posixpath.splitext name),
     snd (posixpath.splitext name)).
Proof.
  intros Hname. unfold posixpath.splitext, posixpath.sep.
  set (pre := d ++ "/").
  assert (String.length pre = S (String.length d)) as Hlen.
  { unfold pre. rewrite length_app. cbn. lia. }
  assert (rfind name sl = (-1)%Z) as Hs' by (apply rfind_absent; exact Hname).
  assert (rfind (pre ++ name) sl = Z.of_nat (String.length d)) as Hs.
  { rewrite rfind_app, Hs'. cbn [Z.leb Z.compare].
    unfold pre. rewrite rfind_app. cbn. lia. }
  rewrite Hs, Hs'. rewrite (rfind_app pre name ".").
  destruct (0 <=? rfind name ".")%Z eqn:Ed.
  - apply Z.leb_le in Ed.
    set (j := rfind name "."%char) in *.
    replace (Z.of_nat (String.length d) <? Z.of_nat (String.length pre) + j)%Z
      with true by (symmetry; apply Z.ltb_lt; lia).
    replace (-1 <? j)%Z with true by (symmetry; apply Z.ltb_lt; lia).
    cbn zeta.
    replace (Z.to_nat (Z.of_nat (String.length pre) + j))
      with (String.length pre + Z.to_nat j) by lia.
    replace (Z.to_nat (Z.of_nat (String.length d) + 1))
      with (String.length pre + 0) by lia.
    replace (Z.to_nat (-1 + 1)) with 0 by lia.
    rewrite slice_to_app, !slice_from_app, !slice_from_0.
    destruct (negb (slice_to name (Z.to_nat j)
                    =? mul "." (String.length (slice_to name (Z.to_nat j)))));
      reflexivity.
  - apply Z.leb_gt in Ed.
    assert (rfind name "." = (-1)%Z) as ->
        by (pose proof (rfind_bounds name "."); lia).
    assert (rfind pre "." < Z.of_nat (String.length d))%Z as Hp.
    { unfold pre. rewrite rfind_app. cbn.
      pose proof (rfind_bounds d "."). lia. }
    replace (Z.of_nat (String.length d) <? rfind pre ".")%Z with false
      by (symmetry; apply Z.ltb_ge; lia).
    reflexivity.
Qed.

Lemma suffix_map_free (ext full : string) :
  get mimetypes.suffix_map ext = Some full -> mem sl full = false.
Proof.
  unfold mimetypes.suffix_map. cbn [get].
  repeat match goal with
         | |- context [if ?k =? ext then _ else _] => destruct (k =? ext)
         end;
    intros H; inversion H; reflexivity.
Qed.

(** The part of [guess_suffix] after the look-up in [suffix_map]. *)
Lemma guess_tail_prefix (types : list (string * string)) (pre b e : string) :
  (forall name, mem sl name = false ->
     posixpath.splitext (pre ++ name)
     = (pre ++ fst (posixpath.splitext name), snd (posixpath.splitext name))) ->
  mem sl b = false ->
  (let '(base, ext) :=
     match get mimetypes.encodings_map e with
     | Some _ => posixpath.splitext (pre ++ b)
     | None => (pre ++ b, e)
     end in
   get types (lower ext))
  = (let '(base, ext) :=
       match get mimetypes.encodings_map e with
       | Some _ => posixpath.splitext b
       | None => (b, e)
       end in
     get types (lower ext)).
Proof.
  intros Hpre Hb. destruct (get mimetypes.encodings_map e); [|reflexivity].
  rewrite (Hpre b Hb). destruct (posixpath.splitext b). reflexivity.
Qed.

Lemma guess_suffix_prefix (types : list (string * string)) (d name : string) :
  mem sl name = false ->
  mimetypes.guess_suffix types ((d ++ "/") ++ name)
  = mimetypes.guess_suffix types name.
Proof.
  intros Hname. unfold mimetypes.guess_suffix.
  rewrite (splitext_prefix d name Hname).
  pose proof (splitext_free name Hname) as Hb.
  destruct (posixpath.splitext name) as [b e]. cbn [fst snd] in *.
  destruct (get mimetypes.suffix_map (lower e)) as [full|] eqn:Es.
  - assert (mem sl (b ++ full) = false) as Hbf.
    { rewrite mem_app, Hb, (suffix_map_free _ full Es). reflexivity. }
    rewrite append_assoc, (splitext_prefix d _ Hbf).
    pose proof (splitext_free _ Hbf) as Hb2.
    destruct (posixpath.splitext (b ++ full)) as [b2 e2]. cbn [fst snd] in *.
    apply guess_tail_prefix; [apply splitext_prefix | exact Hb2].
  - apply guess_tail_prefix; [apply splitext_prefix | exact Hb].
Qed.

Lemma guess_suffix_slash (types : list (string * string)) (u : string) :
  get types "" = None -> endswith u "/" = true ->
  mimetypes.guess_suffix types u = None.
Proof.
  intros Htypes Hu. destruct (endswith_inv u Hu) as [d ->].
  rewrite <- (append_nil_r (d ++ "/")).
  rewrite (guess_suffix_prefix types d "" eq_refl).
  unfold mimetypes.guess_suffix. cbn. exact Htypes.
Qed.

(** URL schemes *)

Lemma splittype_none (u : string) :
  fst (mimetypes.splittype u) = None -> mimetypes.splittype u = (None, u).
Proof.
  unfold mimetypes.splittype.
  destruct (mimetypes.span_scheme u) as [[scheme data]|]; [|reflexivity].
  destruct (scheme =? ""); [reflexivity | discriminate].
Qed.

Lemma span_scheme_spec (u scheme data : string) :
  mimetypes.span_scheme u = Some (scheme, data) ->
  u = scheme ++ String ":" data.
Proof.
  revert scheme. induction u as [|c u IH]; intros scheme; [discriminate|].
  cbn [mimetypes.span_scheme].
  destruct (Ascii.eqb c ":") eqn:Ec.
  - apply Ascii.eqb_eq in Ec. subst c. intros H. inversion H. reflexivity.
  - destruct (Ascii.eqb c "/"); [discriminate|].
    destruct (mimetypes.span_scheme u) as [[sch0 data0]|]; [|discriminate].
    intros H. inversion H; subst. cbn [append]. f_equal. apply IH. reflexivity.
Qed.

(** What follows the scheme of a path keeps the last component of the
    path. *)
Lemma span_scheme_app (d x scheme data : string) :
  mimetypes.span_scheme (d ++ String sl x) = Some (scheme, data) ->
  exists d', data = d' ++ String sl x.
Proof.
  revert scheme. induction d as [|c d IH]; intros scheme; [discriminate|].
  cbn [append mimetypes.span_scheme].
  destruct (Ascii.eqb c ":").
  - intros H. inversion H. exists d. reflexivity.
  - destruct (Ascii.eqb c "/"); [discriminate|].
    destruct (mimetypes.span_scheme (d ++ String sl x)) as [[sch0 data0]|];
      [|discriminate].
    intros H. inversion H; subst. exact (IH sch0 eq_refl).
Qed.

Lemma endswith_after_colon (a data : string) :
  endswith (a ++ String ":" data) "/" = true -> endswith data "/" = true.
Proof.
  induction a as [|c a IH].
  - cbn [append]. rewrite endswith_cons.
    destruct (data =? ""); [discriminate | exact (fun H => H)].
  - cbn [append]. rewrite endswith_cons.
    destruct (a ++ String ":" data =? "") eqn:E; [|exact IH].
    apply String.eqb_eq, append_eq_nil in E. destruct E; discriminate.
Qed.

(** Unless the subpath is a [data:] URL, its type is guessed from the
    extension of the subpath or of what follows its scheme. *)
Lemma guess_type_cases (types : list (string * string)) (u : string) :
  fst (mimetypes.splittype u) <> Some "data" ->
  mimetypes.guess_type types u = mimetypes.guess_suffix types u
  \/ exists scheme data,
      mimetypes.span_scheme u = Some (scheme, data)
      /\ mimetypes.guess_type types u = mimetypes.guess_suffix types data.
Proof.
  unfold mimetypes.guess_type, mimetypes.splittype.
  destruct (mimetypes.span_scheme u) as [[scheme data]|]; [|left; reflexivity].
  destruct (scheme =? ""); [left; reflexivity|].
  cbn [fst]. intros H. right. exists scheme, data. split; [reflexivity|].
  destruct (lower scheme =? "data") eqn:E; [|reflexivity].
  apply String.eqb_eq in E. congruence.
Qed.

End SplitextFacts.

(** X8: the MIME type guessed for a subpath, and so [is_binary], is that of
    its last component, the directories before it playing no part,
    provided that the last component has no URL scheme of its own and that
    the subpath is not a [data:] URL. *)
Theorem X8_is_binary_of_last_component :
  forall (h : os.host) (d name : string),
    Py.mem "/" name = false ->
    fst (mimetypes.splittype name) = None ->
    fst (mimetypes.splittype (d ++ "/" ++ name)) <> Some "data" ->
    DirectoryReader.mimetype_for h (Some (d ++ "/" ++ name))
    = DirectoryReader.mimetype_for h (Some name)
    /\ DirectoryReader.is_binary h (Some (d ++ "/" ++ name))
       = DirectoryReader.is_binary h (Some name).
Proof.
  intros h d name Hname Hplain Hdata.
  assert (DirectoryReader.mimetype_for h (Some (d ++ "/" ++ name))
          = DirectoryReader.mimetype_for h (Some name)) as E.
  { unfold DirectoryReader.mimetype_for, ReadmeReader.mimetype_for.
    assert (mimetypes.guess_type (os.types_map h) name
            = mimetypes.guess_suffix (os.types_map h) name) as ->.
    { unfold mimetypes.guess_type. rewrite (splittype_none name Hplain).
      reflexivity. }
    destruct (guess_type_cases (os.types_map h) _ Hdata)
      as [->|(scheme & data & Hspan & ->)].
    - rewrite <- append_assoc. apply guess_suffix_prefix. exact Hname.
    - change (d ++ "/" ++ name) with (d ++ String "/" name) in Hspan.
      destruct (span_scheme_app _ _ _ _ Hspan) as [d' ->].
      change (d' ++ String "/" name) with (d' ++ "/" ++ name).
      rewrite <- append_assoc. apply guess_suffix_prefix. exact Hname. }
  split; [exact E|]. unfold DirectoryReader.is_binary. rewrite E. reflexivity.
Qed.

Lemma X8_witness :
  DirectoryReader.is_binary Example.h (Some ("notes.txt/images" ++ "/" ++ "logo.png"))
  = Py.VBool true
  /\ DirectoryReader.is_binary Example.h (Some ("http:pics" ++ "/" ++ "notes.txt"))
     = Py.VBool false.
Proof.
  split.
  - exact (proj2 (X8_is_binary_of_last_component Example.h
                    "notes.txt/images" "logo.png" eq_refl eq_refl
                    ltac:(discriminate))).
  - exact (proj2 (X8_is_binary_of_last_component Example.h
                    "http:pics" "notes.txt" eq_refl eq_refl
                    ltac:(discriminate))).
Defined.

(** X9: when the MIME table has no entry for the empty extension, no type
    is guessed for a subpath that ends with a slash and is not a [data:]
    URL, so [is_binary] is [None] there and whatever [read] returns for
    such a subpath is text. *)
Theorem X9_directory_subpath_read_as_text :
  forall (self : DirectoryReader.t) (h : os.host) (s : string),
    Py.get (os.types_map h) "" = None ->
    Py.endswith s "/" = true ->
    fst (mimetypes.splittype s) <> Some "data" ->
    DirectoryReader.is_binary h (Some s) = Py.VNone
    /\ forall c, DirectoryReader.read self h (Some s) = Py.Return (Some c) ->
                 exists t, c = Text t.
Proof.
  intros self h s Htypes Hs Hdata.
  assert (DirectoryReader.is_binary h (Some s) = Py.VNone) as Hb.
  { unfold DirectoryReader.is_binary, DirectoryReader.mimetype_for,
      ReadmeReader.mimetype_for.
    destruct (guess_type_cases (os.types_map h) s Hdata)
      as [->|(scheme & data & Hspan & ->)].
    - rewrite (guess_suffix_slash _ s Htypes Hs). reflexivity.
    - rewrite (guess_suffix_slash _ data Htypes); [reflexivity|].
      apply span_scheme_spec in Hspan. subst s.
      exact (endswith_after_colon _ _ Hs). }
  split; [exact Hb|]. intros c Hc.
  unfold DirectoryReader.read in Hc. rewrite Hb in Hc. cbn [Py.truthy negb] in Hc.
  apply bind_inv in Hc as (f & _ & Hc).
  destruct (if os.isdir h f then resolver.find_file h f else Some f) as [g|];
    [|discriminate].
  apply read_text_file_inv in Hc as (data & _ & ->). eauto.
Qed.

Lemma X9_witness :
  DirectoryReader.is_binary Example.h (Some "logo.png/") = Py.VNone.
Proof.
  exact (proj1 (X9_directory_subpath_read_as_text Example.reader Example.h
                  "logo.png/" eq_refl eq_refl ltac:(discriminate))).
Defined.

(** ** The two helpers that open files *)

Section HelperFacts.
Import Py os.

Lemma translate_newlines_no_cr_pair (s : string) :
  mem io.CR (io.translate_newlines s) = false
  /\ forall c, mem io.CR (io.translate_newlines (String c s)) = false.
Proof.
  induction s as [|d s [IH1 IH2]].
  - split; [reflexivity|]. intros c. cbn [io.translate_newlines].
    destruct (Ascii.eqb c io.CR) eqn:Ec; [reflexivity|].
    cbn [mem]. rewrite Ascii.eqb_sym, Ec. reflexivity.
  - split; [apply IH2|]. intros c.
    change (io.translate_newlines (String c (String d s)))
      with (if Ascii.eqb c io.CR
            then if Ascii.eqb d io.LF
                 then String io.LF (io.translate_newlines s)
                 else String io.LF (io.translate_newlines (String d s))
            else String c (io.translate_newlines (String d s))).
    destruct (Ascii.eqb c io.CR) eqn:Ec.
    + destruct (Ascii.eqb d io.LF); cbn [mem];
        change (Ascii.eqb io.CR io.LF) with false; cbn iota;
        [exact IH1 | apply IH2].
    + cbn [mem]. rewrite Ascii.eqb_sym, Ec. apply IH2.
Qed.

Lemma translate_newlines_no_cr (s : string) :
  mem io.CR (io.translate_newlines s) = false.
Proof. exact (proj1 (translate_newlines_no_cr_pair s)). Qed.

Lemma translate_newlines_id (s : string) :
  mem io.CR s = false -> io.translate_newlines s = s.
Proof.
  induction s as [|c s IH]; [reflexivity|].
  cbn [mem]. destruct (Ascii.eqb io.CR c) eqn:Ec; [discriminate|].
  intros H. cbn [io.translate_newlines]. rewrite Ascii.eqb_sym, Ec.
  now rewrite (IH H).
Qed.

Lemma utf8_valid_ascii (data : list byte) :
  Forall (fun b => io.between 0 127 b = true) data ->
  io.utf8_valid data = true.
Proof.
  induction 1 as [|b data Hb _ IH]; [reflexivity|].
  cbn [io.utf8_valid]. rewrite Hb. exact IH.
Qed.

Lemma string_of_bytes_no_cr (data : list byte) :
  Forall (fun b => Ascii.eqb (ascii_of_byte b) io.CR = false) data ->
  mem io.CR (string_of_list_byte data) = false.
Proof.
  induction 1 as [|b data Hb _ IH]; [reflexivity|].
  unfold string_of_list_byte in *. cbn [map string_of_list_ascii mem].
  rewrite Ascii.eqb_sym, Hb. exact IH.
Qed.

Lemma read_binary_file_returns (h : host) (f : string) (b : list byte) :
  DirectoryReader.read_binary_file h f = Return (Some (Binary b)) <->
  io.read_bytes h f = Return b.
Proof.
  unfold DirectoryReader.read_binary_file.
  destruct (io.read_bytes h f) as [data|e].
  - split; intros H; inversion H; reflexivity.
  - split; [|discriminate].
    destruct e as [ex| |]; try discriminate.
    destruct (errno_eqb ex ENOENT); discriminate.
Qed.

Lemma helper_absent (h : host) (f : string) :
  (DirectoryReader.read_text_file h f = Return None <->
   io.read_bytes h f = Raise (IOError ENOENT))
  /\ (DirectoryReader.read_binary_file h f = Return None <->
      io.read_bytes h f = Raise (IOError ENOENT)).
Proof.
  unfold DirectoryReader.read_text_file, DirectoryReader.read_binary_file,
    io.read_text, io.decode_utf8.
  destruct (io.read_bytes h f) as [data|e]; cbn [bind].
  - split; (split; [|discriminate]).
    + destruct (io.utf8_valid data); discriminate.
    + discriminate.
  - destruct e as [ex| |]; try (split; split; discriminate).
    destruct ex; cbn; split; split; congruence.
Qed.

End HelperFacts.

(** X10: text returned by [read] holds no carriage return: the file is
    opened in text mode, where CR LF and a lone CR are read as LF. *)
Theorem X10_text_has_no_carriage_return :
  forall (self : DirectoryReader.t) (h : os.host) (subpath : option string)
         (s : string),
    DirectoryReader.read self h subpath = Py.Return (Some (Text s)) ->
    Py.mem io.CR s = false.
Proof.
  intros self h subpath s H.
  assert (exists f, DirectoryReader.read_text_file h f
                    = Py.Return (Some (Text s))) as [f Hf].
  { destruct subpath as [sp|]; [|exists (DirectoryReader.filename self); exact H].
    unfold DirectoryReader.read in H.
    apply bind_inv in H as (f & _ & H).
    destruct (if os.isdir h f then resolver.find_file h f else Some f) as [g|];
      [|discriminate].
    destruct (negb (Py.truthy (DirectoryReader.is_binary h (Some sp)))).
    - exists g. exact H.
    - apply read_binary_file_inv in H as (data & _ & H). discriminate. }
  apply read_text_file_inv in Hf as (data & _ & E).
  inversion E. apply translate_newlines_no_cr.
Qed.

Lemma X10_witness : Py.mem io.CR "Hello" = false.
Proof.
  exact (X10_text_has_no_carriage_return Example.reader Example.h None
           "Hello" eq_refl).
Defined.

(** X11: the two helpers agree on what is there.  Each returns [None]
    exactly when the other does; when [read_text_file] returns a text,
    [read_binary_file] returns well-formed UTF-8 bytes of which that text is
    the decoding with newlines translated; and an error raised by
    [read_binary_file] is raised by [read_text_file] too. *)
Theorem X11_text_and_binary_helpers_agree :
  forall (h : os.host) (f : string),
    (DirectoryReader.read_text_file h f = Py.Return None <->
     DirectoryReader.read_binary_file h f = Py.Return None)
    /\ (forall s,
           DirectoryReader.read_text_file h f = Py.Return (Some (Text s)) ->
           exists b,
             DirectoryReader.read_binary_file h f = Py.Return (Some (Binary b))
             /\ io.utf8_valid b = true
             /\ s = io.translate_newlines (string_of_list_byte b))
    /\ (forall e,
           DirectoryReader.read_binary_file h f = Py.Raise e ->
           DirectoryReader.read_text_file h f = Py.Raise e).
Proof.
  intros h f. split; [|split].
  - destruct (helper_absent h f) as [Ht Hb]. rewrite Ht, Hb. tauto.
  - intros s H.
    unfold DirectoryReader.read_text_file, DirectoryReader.read_binary_file,
      io.read_text, io.decode_utf8 in *.
    destruct (io.read_bytes h f) as [data|e]; cbn [Py.bind] in H.
    + destruct (io.utf8_valid data) eqn:Hv; cbn [Py.bind] in H;
        [|discriminate].
      inversion H. exists data. auto.
    + destruct e as [ex| |]; try discriminate.
      destruct (Py.errno_eqb ex Py.ENOENT); discriminate.
  - intros e.
    unfold DirectoryReader.read_text_file, DirectoryReader.read_binary_file,
      io.read_text.
    destruct (io.read_bytes h f) as [data|e0]; cbn [Py.bind];
      [discriminate | exact (fun H => H)].
Qed.

(** X12: for a file whose bytes are all below 128 and none a carriage
    return, [read_text_file] returns, as text, exactly the bytes
    [read_binary_file] returns. *)
Theorem X12_plain_ascii_read_verbatim :
  forall (h : os.host) (f : string) (b : list byte),
    DirectoryReader.read_binary_file h f = Py.Return (Some (Binary b)) ->
    Forall (fun x => io.between 0 127 x = true
                     /\ Ascii.eqb (ascii_of_byte x) io.CR = false) b ->
    DirectoryReader.read_text_file h f
    = Py.Return (Some (Text (string_of_list_byte b))).
Proof.
  intros h f b Hb Hall.
  apply read_binary_file_returns in Hb.
  unfold DirectoryReader.read_text_file, io.read_text, io.decode_utf8.
  rewrite Hb. cbn [Py.bind].
  rewrite utf8_valid_ascii.
  - cbn [Py.bind]. rewrite translate_newlines_id; [reflexivity|].
    apply string_of_bytes_no_cr. revert Hall. apply Forall_impl. tauto.
  - revert Hall. apply Forall_impl. tauto.
Qed.

Lemma X12_witness :
  DirectoryReader.read_text_file Example.h "docs/guide.md"
  = Py.Return (Some (Text "Guide")).
Proof.
  exact (X12_plain_ascii_read_verbatim Example.h "docs/guide.md"
           (list_byte_of_string "Guide") eq_refl
           ltac:(repeat constructor)).
Defined.

(** X13: when [read] without a subpath returns content, [last_updated]
    without a subpath does not raise: it returns the modification time of
    the very file that was read. *)
Theorem X13_last_updated_after_read :
  forall (self : DirectoryReader.t) (h : os.host) (c : content),
    DirectoryReader.read self h None = Py.Return (Some c) ->
    exists mtime data up,
      os.lookup h (DirectoryReader.filename self)
      = Py.Return (os.File mtime true data :: up)
      /\ c = Text (io.translate_newlines (string_of_list_byte data))
      /\ DirectoryReader.last_updated self h None = Py.Return mtime.
Proof.
  intros self h c H. cbn [DirectoryReader.read] in H.
  apply read_text_file_inv in H as (data & Hb & ->).
  apply read_bytes_inv in Hb as (m & up & Hl).
  exists m, data, up. split; [exact Hl|]. split; [reflexivity|].
  unfold DirectoryReader.last_updated, os.getmtime, os.stat.
  rewrite Hl. reflexivity.
Qed.

Lemma X13_witness :
  exists mtime data up,
    os.lookup Example.h (DirectoryReader.filename Example.reader)
    = Py.Return (os.File mtime true data :: up)
    /\ Text "Hello" = Text (io.translate_newlines (string_of_list_byte data))
    /\ DirectoryReader.last_updated Example.reader Example.h None
       = Py.Return mtime.
Proof.
  exact (X13_last_updated_after_read Example.reader Example.h
           (Text "Hello") eq_refl).
Defined.

(** ** The entry file and the reader's directory *)

Section EntryFacts.
Import Py os.

Local Abbreviation sl := "/"%char.

Lemma step_sound (st st' : list node) (c : string) :
  sound st -> step st c = Return st' -> sound st'.
Proof.
  unfold sound. destruct st as [|[m r d|m es] up]; cbn [step tl];
    try discriminate.
  intros Hs. destruct ((c =? "") || (c =? ".")).
  - intros H. inversion H. exact Hs.
  - destruct (c =? "..").
    + intros H. inversion H. destruct up as [|x up]; cbn [tl].
      * constructor.
      * inversion Hs; assumption.
    + destruct (get es c); [|discriminate].
      intros H. inversion H. cbn [tl]. constructor; [reflexivity | exact Hs].
Qed.

Lemma walk_sound (cs : list string) :
  forall st st', sound st -> walk st cs = Return st' -> sound st'.
Proof.
  induction cs as [|c cs IH]; intros st st' Hs H.
  - inversion H; subst. exact Hs.
  - cbn [walk] in H. apply bind_inv in H as (st1 & H1 & H).
    exact (IH _ _ (step_sound _ _ _ Hs H1) H).
Qed.

Lemma start_sound (h : host) (p : string) (st : list node) :
  start h p = Return st -> sound st.
Proof.
  unfold start. destruct (posixpath.isabs p).
  - intros H. inversion H. constructor.
  - apply walk_sound. constructor.
Qed.

Lemma walk_empties (cs : list string) :
  Forall (fun c => c = "") cs ->
  forall st st', walk st cs = Return st' -> st' = st.
Proof.
  induction 1 as [|c cs Hc _ IH]; intros st st' H.
  - inversion H. reflexivity.
  - subst c. cbn [walk] in H. apply bind_inv in H as (st1 & H1 & H).
    destruct (step_top_dir _ _ _ H1) as (m & es & up & ->).
    cbn in H1. inversion H1; subst st1. exact (IH _ _ H).
Qed.

Lemma split_mul_empties (k : nat) :
  Forall (fun c => c = "") (Py.split (mul "/" k) sl).
Proof.
  induction k as [|k IH]; [repeat constructor|].
  rewrite mul_slash_S. cbn [Py.split]. rewrite Ascii.eqb_refl.
  constructor; [reflexivity | exact IH].
Qed.

(** Trailing slashes do not change where a path leads. *)
Lemma walk_rstrip (d : string) (st0 st1 : list node) :
  walk st0 (Py.split d sl) = Return st1 ->
  only d sl = false ->
  walk st0 (Py.split (rstrip d "/") sl) = Return st1.
Proof.
  intros H Ho. rewrite (rstrip_decomp d) in H.
  destruct (trailing d sl) as [|k]; [now rewrite append_nil_r in H|].
  rewrite mul_slash_S, split_app, walk_app in H.
  apply bind_inv in H as (st & Hr & H).
  rewrite (walk_empties _ (split_mul_empties k) _ _ H). exact Hr.
Qed.

(** The last step to a file enters an entry of the current directory. *)
Lemma step_to_file (st up : list node) (name : string) (m : Z)
      (data : list byte) :
  sound st -> mem sl name = false ->
  step st name = Return (File m true data :: up) ->
  exists B up0,
    st = B :: up0
    /\ proper name = true
    /\ descend B [name] = Some (File m true data).
Proof.
  intros Hs Hname H.
  destruct (step_top_dir _ _ _ H) as (mt & es & up0 & ->).
  cbn [step] in H. unfold proper. rewrite Hname.
  destruct ((name =? "") || (name =? ".")) eqn:E1; [discriminate|].
  destruct (name =? "..") eqn:E2.
  - inversion H as [Hup]. destruct up0 as [|x up0]; [discriminate|].
    inversion Hup; subst. unfold sound in Hs. cbn [tl] in Hs.
    inversion Hs; discriminate.
  - destruct (get es name) as [n|] eqn:Hg; [|discriminate].
    inversion H; subst. exists (Dir mt es), up0.
    split; [reflexivity|]. split; [reflexivity|].
    cbn [descend]. rewrite Hg. reflexivity.
Qed.

Lemma entry_in_base (path : string) (h : host) (m : Z) (data : list byte)
      (up : list node) :
  lookup h path = Return (File m true data :: up) ->
  exists B up0 name,
    DirectoryReader.base (DirectoryReader.__init__ path) h = Return (B :: up0)
    /\ proper name = true
    /\ descend B [name] = Some (File m true data).
Proof.
  intros Hl.
  assert (path <> "") as Hp by (intros ->; discriminate).
  unfold DirectoryReader.base, DirectoryReader.__init__.
  cbn [DirectoryReader.directory]. unfold posixpath.dirname, posixpath.sep.
  pose proof (cut_spec path) as [Htl Hhd]. cbn zeta in Htl, Hhd.
  pose proof (slice_append path (Z.to_nat (rfind path sl + 1))) as Happ.
  set (hd0 := slice_to path (Z.to_nat (rfind path sl + 1))) in *.
  set (tl0 := slice_from path (Z.to_nat (rfind path sl + 1))) in *.
  rewrite eqb_mul_only.
  assert (exists st1,
             (if (if negb (hd0 =? "") && negb (only hd0 sl)
                  then rstrip hd0 "/" else hd0) =? ""
              then walk [root h] (cwd h)
              else lookup h (if negb (hd0 =? "") && negb (only hd0 sl)
                             then rstrip hd0 "/" else hd0)) = Return st1
             /\ sound st1
             /\ step st1 tl0 = Return (File m true data :: up))
    as (st1 & Hb & Hs & Hstep).
  { rewrite (lookup_nonempty h path Hp) in Hl.
    apply bind_inv in Hl as (st0 & H0 & Hw).
    pose proof (start_sound h path st0 H0) as Hs0.
    destruct (hd0 =? "") eqn:E0; cbn [negb andb].
    - apply String.eqb_eq in E0. rewrite E0 in Happ. cbn in Happ.
      rewrite <- Happ in Hw, H0.
      rewrite (split_of_slash_free tl0 Htl) in Hw. cbn [walk] in Hw.
      apply bind_inv in Hw as (st & Hstep & E). inversion E; subst st.
      exists st0. rewrite E0. cbn. split; [|split; assumption].
      unfold start, posixpath.isabs in H0.
      rewrite (startswith_slash_free tl0 Htl) in H0. exact H0.
    - assert (endswith hd0 "/" = true) as He.
      { destruct (mem sl path); [exact Hhd|]. rewrite Hhd in E0. discriminate. }
      apply String.eqb_neq in E0.
      destruct (endswith_inv hd0 He) as [d' Ed].
      assert (path = d' ++ String sl tl0) as Epath.
      { rewrite <- Happ, Ed, append_assoc. reflexivity. }
      rewrite Epath, split_app, (split_of_slash_free tl0 Htl), walk_app in Hw.
      apply bind_inv in Hw as (st1 & H1 & Hw). cbn [walk] in Hw.
      apply bind_inv in Hw as (st & Hstep & E). inversion E; subst st.
      pose proof (walk_sound _ _ _ Hs0 H1) as Hs1.
      exists st1. split; [|split; assumption].
      assert (start h hd0 = Return st0) as H0'.
      { rewrite <- Happ in H0. rewrite start_app in H0 by exact E0. exact H0. }
      destruct (only hd0 sl) eqn:Eo; cbn [negb].
      + apply String.eqb_neq in E0. rewrite E0.
        apply String.eqb_neq in E0.
        rewrite (lookup_nonempty h hd0 E0), H0'. cbn [bind].
        rewrite Ed, (split_app d' ""), walk_app, H1. cbn [bind].
        destruct (step_top_dir _ _ _ Hstep) as (mt & es & up1 & ->).
        reflexivity.
      + assert (rstrip hd0 "/" <> "") as Hr.
        { intros En. apply String.eqb_eq in En.
          rewrite rstrip_nil_only in En. congruence. }
        pose proof Hr as Hr'. apply String.eqb_neq in Hr'. rewrite Hr'.
        rewrite (lookup_nonempty h _ Hr).
        assert (start h (rstrip hd0 "/") = Return st0) as ->.
        { rewrite (rstrip_decomp hd0) in H0'.
          rewrite start_app in H0' by exact Hr. exact H0'. }
        cbn [bind].
        assert (only d' sl = false) as Eo'.
        { rewrite Ed, only_app in Eo. cbn in Eo.
          now rewrite andb_true_r in Eo. }
        rewrite Ed, rstrip_app_slash.
        apply walk_rstrip; assumption. }
  destruct (step_to_file st1 up tl0 m data Hs Htl Hstep)
    as (B & up0 & -> & Hproper & Hd).
  exists B, up0, tl0. auto.
Qed.

End EntryFacts.

(** X14: the file [read] decodes when no subpath is given is an entry of
    the directory the reader was built for: the directory kept at
    construction is the one that holds the entry file. *)
Theorem X14_entry_file_in_reader_directory :
  forall (path : string) (h : os.host) (c : content),
    DirectoryReader.read (DirectoryReader.__init__ path) h None
    = Py.Return (Some c) ->
    exists B up name mtime data,
      DirectoryReader.base (DirectoryReader.__init__ path) h
      = Py.Return (B :: up)
      /\ os.proper name = true
      /\ os.descend B [name] = Some (os.File mtime true data)
      /\ c = Text (io.translate_newlines (string_of_list_byte data)).
Proof.
  intros path h c H. cbn [DirectoryReader.read] in H.
  apply read_text_file_inv in H as (data & Hb & ->).
  apply read_bytes_inv in Hb as (m & up & Hl).
  destruct (entry_in_base path h m data up Hl) as (B & up0 & name & Hbase & Hp & Hd).
  exists B, up0, name, m, data. auto.
Qed.

Lemma X14_witness :
  exists B up name mtime data,
    DirectoryReader.base (DirectoryReader.__init__ "docs//images/../README.md")
      Example.h = Py.Return (B :: up)
    /\ os.proper name = true
    /\ os.descend B [name] = Some (os.File mtime true data)
    /\ Text "Hello" = Text (io.translate_newlines (string_of_list_byte data)).
Proof.
  exact (X14_entry_file_in_reader_directory "docs//images/../README.md"
           Example.h (Text "Hello") eq_refl).
Defined.

(** ** normalize as a key *)

(** X15: a subpath that is not empty and has no trailing slash is
    normalized like the same subpath followed by a slash: both spellings of
    a reference get one normal form, with the slash for a directory and
    without it otherwise. *)
Theorem X15_normalize_ignores_added_slash :
  forall (self : DirectoryReader.t) (h : os.host) (s : string),
    s <> "" -> Py.endswith s "/" = false ->
    DirectoryReader.normalize self h (Some (s ++ "/"))
    = DirectoryReader.normalize self h (Some s).
Proof.
  intros self h s Hs He.
  assert (Py.only s "/" = false) as Ho.
  { destruct (Py.only s "/") eqn:Ho; [|reflexivity].
    apply rstrip_only in Ho. rewrite (rstrip_noop s He) in Ho. contradiction. }
  assert (s ++ "/" <> "") as Hs'.
  { intros E. apply append_eq_nil in E as [_ E]. discriminate. }
  rewrite (normalize_unfold self h _ Hs'), (normalize_unfold self h s Hs).
  rewrite (safe_join_app_slash _ s Ho).
  destruct (flask.safe_join (DirectoryReader.directory self) [s]) as [f|e];
    [|reflexivity].
  cbn [Py.bind]. rewrite rstrip_app_slash, endswith_app_slash, He.
  destruct (os.isdir h f); reflexivity.
Qed.

Lemma X15_witness :
  DirectoryReader.normalize Example.reader Example.h (Some ("images" ++ "/"))
  = Py.Return (Some "images/")
  /\ DirectoryReader.normalize Example.reader Example.h (Some ("guide.md" ++ "/"))
     = Py.Return (Some "guide.md").
Proof.
  split.
  - exact (X15_normalize_ignores_added_slash Example.reader Example.h
             "images" ltac:(discriminate) eq_refl).
  - exact (X15_normalize_ignores_added_slash Example.reader Example.h
             "guide.md" ltac:(discriminate) eq_refl).
Defined.

(** ** StdinReader as a TextReader *)


(** X17: a [StdinReader] whose text is set answers every run of [read]
    calls as the [TextReader] built on that text does, and neither the
    instance nor standard input changes. *)
Theorem X17_filled_stdin_reader_is_text_reader :
  forall (text : string) (filename : option string) (stdin : sys.stream)
         (subpaths : list (option string)),
    StdinReader.reads (TextReader.__init__ (Some text) filename) stdin subpaths
    = (map (TextReader.read (TextReader.__init__ (Some text) filename)) subpaths,
       TextReader.__init__ (Some text) filename,
       stdin).
Proof.
  intros text filename stdin subpaths.
  unfold TextReader.__init__. rewrite reads_filled. cbn zeta.
  rewrite (map_ext (StdinReader.answer text)
             (TextReader.read {| TextReader.text := Some text;
                                 TextReader.filename := filename |}));
    [reflexivity|].
  intros [s|]; reflexivity.
Qed.

(** ** The file name handed to the host *)

(** X18: the path that [read] and [normalize] build for a subpath is, as a
    string, the reader's directory followed by a relative path none of
    whose components is [..]: no file system is needed to see that it does
    not climb out of the directory. *)
Theorem X18_resolved_name_extends_directory :
  forall (self : DirectoryReader.t) (s f : string),
    flask.safe_join (DirectoryReader.directory self)
      [DirectoryReader.filename_for self (Some s)] = Py.Return f ->
    exists rest,
      f = DirectoryReader.directory self ++ rest
      /\ Forall (fun comp => comp <> "..") (Py.split rest "/").
Proof.
  intros self s f H.
  apply safe_join_inv in H as (n & -> & Hn & Hdd).
  unfold posixpath.join_step. rewrite Hn.
  destruct ((DirectoryReader.directory self =? "")
            || Py.endswith (DirectoryReader.directory self) "/").
  - exists n. split; [reflexivity | exact Hdd].
  - exists ("/" ++ n). split; [reflexivity|].
    change ("/" ++ n) with ("" ++ String "/" n). rewrite split_app.
    constructor; [discriminate | exact Hdd].
Qed.

Lemma X18_witness :
  exists rest,
    "docs/guide.md" = DirectoryReader.directory Example.reader ++ rest
    /\ Forall (fun comp => comp <> "..") (Py.split rest "/").
Proof.
  exact (X18_resolved_name_extends_directory Example.reader
           "images/../guide.md" "docs/guide.md" eq_refl).
Defined.

(** X19: [read_text_file] raises [UnicodeDecodeError] exactly when the file
    can be read and its bytes are not well-formed UTF-8: such a file is
    neither absent nor returned. *)
Theorem X19_decode_error_iff_ill_formed :
  forall (h : os.host) (f : string),
    DirectoryReader.read_text_file h f = Py.Raise Py.UnicodeDecodeError
    <-> exists b,
        DirectoryReader.read_binary_file h f = Py.Return (Some (Binary b))
        /\ io.utf8_valid b = false.
Proof.
  intros h f.
  unfold DirectoryReader.read_text_file, DirectoryReader.read_binary_file,
    io.read_text, io.decode_utf8.
  destruct (io.read_bytes h f) as [data|e] eqn:Hb; cbn [Py.bind].
  - destruct (io.utf8_valid data) eqn:Hv; cbn [Py.bind].
    + split; [discriminate|]. intros (b & E & Hb'). inversion E; subst b.
      congruence.
    + split; [|reflexivity]. intros _. exists data. auto.
  - destruct (read_bytes_raises _ _ _ Hb) as [en ->].
    destruct (Py.errno_eqb en Py.ENOENT).
    + split; [discriminate|]. intros (b & E & _). discriminate.
    + split; [discriminate|]. intros (b & E & _). discriminate.
Qed.
